(** * Student management dashboard: the mock course API, the dashboard
      controller and the student form, embedded from the JavaScript sources

    - [src/lib/mock-api.js]: [COURSES_DATA], [getCourses], [getCourseById];
    - [src/app/page.jsx]: [loadCourses], the early returns of the render
      function, [filteredStudents], [dashboardStats];
    - [src/components/student-form.jsx]: [validateEmail], [validateForm],
      [handleSubmit].

    Conventions of the embedding.
    - A JavaScript string is a sequence of UTF-16 code units.  The strings
      of this development are those whose code units are below 256; they
      are represented by [string], one [ascii] per code unit.
    - A JavaScript number that holds an integer is a [Z].  What
      [Number.parseInt] returns is a [number]: [NaN], an infinity, or
      the integer that a double holds.  Array lengths stay far below
      2^53, where doubles are exact.
    - Objects and arrays live in a store of cells addressed by locations,
      so that two references to one object are visibly the same object.
    - A promise that has settled is a value of [settled]: what the
      [await] returns or the error that it throws. *)

From Stdlib Require Import ZArith QArith Qround String Ascii List Bool Lia.
From stdpp Require Import gmap strings pretty.

Local Open Scope Z_scope.

(** ** The JavaScript primitives used by the sources *)

Module JS.

(** [new Error(message)]: only the message is ever observed. *)
Record Error := mkError { message : string }.

(** Outcome of an awaited promise. *)
Inductive settled (A : Type) : Type :=
| Resolved (v : A)
| Rejected (e : Error).
Arguments Resolved {A} v.
Arguments Rejected {A} e.

Definition code (c : ascii) : N := N_of_ascii c.

(** The class [\s] of regular expressions, which is also what
    [String.prototype.trim] and [parseInt] strip: TAB, LF, VT, FF, CR,
    SPACE and NO-BREAK SPACE are its members below 256. *)
Definition isWhiteSpace (c : ascii) : bool :=
  let n := code c in
  ((9 <=? n) && (n <=? 13) || (n =? 32) || (n =? 160))%N.

(** Code units with a lower-case mapping below 256: A-Z, and the
    Latin-1 capitals U+00C0..U+00DE without the multiplication sign
    U+00D7.  Each maps to the code unit 32 above it. *)
Definition isUpper (c : ascii) : bool :=
  let n := code c in
  ((65 <=? n) && (n <=? 90)
   || (192 <=? n) && (n <=? 222) && negb (n =? 215))%N.

Definition lowerChar (c : ascii) : ascii :=
  if isUpper c then ascii_of_N (code c + 32) else c.

(** [s.toLowerCase()] *)
Fixpoint toLowerCase (s : string) : string :=
  match s with
  | EmptyString => EmptyString
  | String c s' => String (lowerChar c) (toLowerCase s')
  end.

(** [s.startsWith(p)] *)
Fixpoint startsWith (s p : string) {struct p} : bool :=
  match p, s with
  | EmptyString, _ => true
  | String _ _, EmptyString => false
  | String b p', String a s' => Ascii.eqb a b && startsWith s' p'
  end.

(** [s.includes(sub)]: some position of [s] starts an occurrence of
    [sub]; the position [s.length] is tried too, for the empty [sub]. *)
Fixpoint includes (s sub : string) : bool :=
  startsWith s sub ||
  match s with
  | EmptyString => false
  | String _ s' => includes s' sub
  end.

(** [s.trimStart()] and [s.trimEnd()], composed by [s.trim()]. *)
Fixpoint trimStart (s : string) : string :=
  match s with
  | EmptyString => EmptyString
  | String c s' => if isWhiteSpace c then trimStart s' else s
  end.

Fixpoint trimEnd (s : string) : string :=
  match s with
  | EmptyString => EmptyString
  | String c s' =>
      match trimEnd s' with
      | EmptyString => if isWhiteSpace c then EmptyString else String c EmptyString
      | t => String c t
      end
  end.

Definition trim (s : string) : string := trimEnd (trimStart s).

(** Truthiness of a string: only the empty string is falsy. *)
Definition truthy (s : string) : bool := negb (String.eqb s EmptyString).

(** [Math.round(x)]: the integer nearest to [x], a tie going up.  On
    the quotient of two array lengths the double division cannot turn
    a non-tie into a tie, so the exact rational is rounded here. *)
Definition Math_round (x : Q) : Z := Qfloor (x + (1 # 2)).

(** [n.toString()] of an integer-valued number: its decimal digits,
    after a minus sign when negative.  These are the digits that
    JavaScript prints for the integers up to 2^53 in magnitude; above,
    it prints the shortest digits that tell the double from its
    neighbours, and an exponent from 10^21 on. *)
Definition Number_toString (n : Z) : string := pretty n.

(** *** Numbers as [Number.parseInt] returns them

    [NaN], an infinity, or the integer held by a double.  The sign of a
    zero is not kept: nothing in the sources tells [-0] from [0]. *)

Inductive number : Type :=
| NaN
| Infinity (negative : bool)
| Num (value : Z).

(** The double nearest to the integer [a], not negative, as an integer:
    [a] itself below 2^53; above, [a] is cut to its 53 leading bits and
    rounded to the nearest, a tie going to the even one. *)
Definition roundToDouble (a : Z) : Z :=
  if a <? 2 ^ 53 then a
  else
    let e := Z.log2 a - 52 in
    let q := a / 2 ^ e in
    let r := a mod 2 ^ e in
    let half := 2 ^ (e - 1) in
    (if (half <? r) || ((r =? half) && Z.odd q) then q + 1 else q) * 2 ^ e.

(** The number for the integer [v]: its nearest double, or an infinity
    when that would be 2^1024 or more. *)
Definition toNumber (v : Z) : number :=
  let m := roundToDouble (Z.abs v) in
  if 2 ^ 1024 <=? m then Infinity (v <? 0) else Num (Z.sgn v * m).

(** *** [Number.parseInt(s)], the radix left out

    Leading white space is skipped, then an optional sign; a [0x] or
    [0X] prefix selects radix 16, otherwise the radix is 10; the
    longest run of digits of that radix gives the integer read, and
    there is none when the run is empty.  The result is [NaN] when
    there is no integer, and the number for the integer otherwise. *)

Definition digitValue (c : ascii) : option Z :=
  let n := code c in
  if ((48 <=? n) && (n <=? 57))%N then Some (Z.of_N n - 48)
  else if ((97 <=? n) && (n <=? 122))%N then Some (Z.of_N n - 87)
  else if ((65 <=? n) && (n <=? 90))%N then Some (Z.of_N n - 55)
  else None.

Definition digitIn (radix : Z) (c : ascii) : option Z :=
  match digitValue c with
  | Some d => if d <? radix then Some d else None
  | None => None
  end.

(** Value of the longest prefix of digits, [acc] holding the digits
    read so far; [seen] tells whether there was any. *)
Fixpoint parseDigits (radix : Z) (s : string) (seen : bool) (acc : Z) : option Z :=
  match s with
  | EmptyString => if seen then Some acc else None
  | String c s' =>
      match digitIn radix c with
      | Some d => parseDigits radix s' true (acc * radix + d)
      | None => if seen then Some acc else None
      end
  end.

Definition stripSign (s : string) : Z * string :=
match s with
| String c s' =>
    if Ascii.eqb c "-" then (-1, s')
    else if Ascii.eqb c "+" then (1, s')
    else (1, s)
| EmptyString => (1, s)
end.

Definition stripHexPrefix (s : string) : Z * string :=
match s with
| String c (String d s') =>
    if Ascii.eqb c "0" && (Ascii.eqb d "x" || Ascii.eqb d "X") then (16, s')
    else (10, s)
| _ => (10, s)
end.

(** The integer read, with its sign. *)
Definition parseIntMath (s : string) : option Z :=
  let '(sign, s1) := stripSign (trimStart s) in
  let '(radix, s2) := stripHexPrefix s1 in
  match parseDigits radix s2 false 0 with
  | Some v => Some (sign * v)
  | None => None
  end.

Definition Number_parseInt (s : string) : number :=
  match parseIntMath s with
  | Some v => toNumber v
  | None => NaN
  end.

(** *** [encodeURIComponent(s)]

    Letters, digits and [- _ . ! ~ * ' ( )] are kept; any other code
    unit is replaced by the percent-escapes of its UTF-8 bytes: one
    byte below 128, two bytes from 128 to 255.  The call throws a
    [URIError] instead when the string holds a surrogate code unit
    that is not half of a pair. *)

Definition isHighSurrogate (c : ascii) : bool :=
  ((55296 <=? code c) && (code c <=? 56319))%N.

Definition isLowSurrogate (c : ascii) : bool :=
  ((56320 <=? code c) && (code c <=? 57343))%N.

(** [encodeURIComponent(s)] throws.  The strings of this development
    hold no surrogate, so that none of them makes it throw; the test is
    there for the callers that catch the error. *)
Fixpoint throwsURIError (s : string) : bool :=
  match s with
  | EmptyString => false
  | String c s' =>
      if isLowSurrogate c then true
      else if isHighSurrogate c then
        match s' with
        | String d s'' => if isLowSurrogate d then throwsURIError s'' else true
        | EmptyString => true
        end
      else throwsURIError s'
  end.


Definition isUriUnreserved (c : ascii) : bool :=
  let n := code c in
  ((48 <=? n) && (n <=? 57) || (65 <=? n) && (n <=? 90) || (97 <=? n) && (n <=? 122))%N
  || existsb (Ascii.eqb c) ["-"; "_"; "."; "!"; "~"; "*"; "'"; "("; ")"]%char.

Definition hexDigit (n : N) : ascii :=
  if (n <? 10)%N then ascii_of_N (48 + n) else ascii_of_N (55 + n).

Definition percentByte (b : N) : string :=
  String "%" (String (hexDigit (b / 16)) (String (hexDigit (b mod 16)) EmptyString)).

Definition encodeChar (c : ascii) : string :=
  let n := code c in
  if isUriUnreserved c then String c EmptyString
  else if (n <? 128)%N then percentByte n
  else percentByte (192 + n / 64) +:+ percentByte (128 + n mod 64).

(** The result of [encodeURIComponent(s)] when it does not throw. *)
Fixpoint encodeURIComponent (s : string) : string :=
  match s with
  | EmptyString => EmptyString
  | String c s' => encodeChar c +:+ encodeURIComponent s'
  end.

End JS.

(** ** Regular expressions, as far as [validateEmail] needs them *)

Module RegExp.

Inductive regex : Type :=
| Never                                   (* matches nothing *)
| Empty                                   (* the empty string *)
| Char (c : ascii)                        (* a literal, as in [@] or [\.] *)
| Class (member : ascii -> bool)          (* a class, as in [[^\s@]] *)
| Seq (r1 r2 : regex)
| Alt (r1 r2 : regex)
| Star (r : regex).

(** [r+] *)
Definition Plus (r : regex) : regex := Seq r (Star r).

Fixpoint nullable (r : regex) : bool :=
  match r with
  | Never => false
  | Empty => true
  | Char _ => false
  | Class _ => false
  | Seq r1 r2 => nullable r1 && nullable r2
  | Alt r1 r2 => nullable r1 || nullable r2
  | Star _ => true
  end.

(** What remains to be matched once [a] has been read. *)
Fixpoint derive (a : ascii) (r : regex) : regex :=
  match r with
  | Never => Never
  | Empty => Never
  | Char c => if Ascii.eqb a c then Empty else Never
  | Class member => if member a then Empty else Never
  | Seq r1 r2 =>
      if nullable r1
      then Alt (Seq (derive a r1) r2) (derive a r2)
      else Seq (derive a r1) r2
  | Alt r1 r2 => Alt (derive a r1) (derive a r2)
  | Star r1 => Seq (derive a r1) (Star r1)
  end.

(** [/^r$/.test(s)]: the whole of [s] is matched by [r]. *)
Fixpoint test (r : regex) (s : string) : bool :=
  match s with
  | EmptyString => nullable r
  | String a s' => test (derive a r) s'
  end.

(** The language of a regular expression, by its structure. *)
Inductive matches : regex -> string -> Prop :=
| MEmpty : matches Empty EmptyString
| MChar c : matches (Char c) (String c EmptyString)
| MClass member c : member c = true -> matches (Class member) (String c EmptyString)
| MSeq r1 r2 s1 s2 : matches r1 s1 -> matches r2 s2 -> matches (Seq r1 r2) (s1 +:+ s2)
| MAltL r1 r2 s : matches r1 s -> matches (Alt r1 r2) s
| MAltR r1 r2 s : matches r2 s -> matches (Alt r1 r2) s
| MStarNil r : matches (Star r) EmptyString
| MStarApp r s1 s2 : matches r s1 -> matches (Star r) s2 -> matches (Star r) (s1 +:+ s2).

End RegExp.

(** ** [src/lib/mock-api.js] *)

Module MockApi.
Import JS.

(** [{ id, name }] *)
Record Course := mkCourse { id : Z; name : string }.

(** Locations of the store, and what a location holds: a course
    object, or an array whose slots refer to objects. *)
Abbreviation loc := positive.

Inductive cell : Type :=
| CObj (c : Course)
| CArr (elems : list loc).

Abbreviation store := (gmap loc cell).

(** [new]: the cell is placed at a location that the store does not
    use yet. *)
Definition alloc (v : cell) (σ : store) : loc * store :=
  let l := fresh (dom σ) in (l, <[l := v]> σ).

(** The four object literals of [COURSES_DATA], in source order. *)
Definition catalog : list Course :=
  [ mkCourse 1 "HTML Basics";
    mkCourse 2 "CSS Mastery";
    mkCourse 3 "JavaScript Pro";
    mkCourse 4 "React In Depth" ].

(** Evaluation of the module: the object literals are allocated from
    left to right, then the array literal that holds them. *)
Fixpoint allocObjects (cs : list Course) (σ : store) : list loc * store :=
  match cs with
  | [] => ([], σ)
  | c :: cs' =>
      let '(l, σ1) := alloc (CObj c) σ in
      let '(ls, σ2) := allocObjects cs' σ1 in
      (l :: ls, σ2)
  end.

Definition moduleInit : loc * store :=
  let '(ls, σ) := allocObjects catalog ∅ in
  alloc (CArr ls) σ.

(** The constant binding [COURSES_DATA] and the store once the module
    is loaded. *)
Definition COURSES_DATA : loc := Eval vm_compute in fst moduleInit.
Definition moduleStore : store := snd moduleInit.

(** Reading through references: the object at [l], the slots of the
    array at [a], and the courses that an array shows to a reader. *)
Definition readCourse (σ : store) (l : loc) : option Course :=
  match σ !! l with
  | Some (CObj c) => Some c
  | _ => None
  end.

Definition readSlots (σ : store) (a : loc) : option (list loc) :=
  match σ !! a with
  | Some (CArr elems) => Some elems
  | _ => None
  end.

Definition readCourses (σ : store) (a : loc) : option (list Course) :=
  match readSlots σ a with
  | Some elems => mapM (readCourse σ) elems
  | None => None
  end.

(** What a holder of a reference can do to it: [course.name = s],
    [course.id = n], and any rewriting of an array's slots
    ([arr[i] = x], [push], [pop], [splice], [sort], [length = 0]),
    which leaves some other list of slots in the same array. *)
Definition setName (l : loc) (s : string) (σ : store) : store :=
  match σ !! l with
  | Some (CObj c) => <[l := CObj (mkCourse (id c) s)]> σ
  | _ => σ
  end.

Definition setId (l : loc) (n : Z) (σ : store) : store :=
  match σ !! l with
  | Some (CObj c) => <[l := CObj (mkCourse n (name c))]> σ
  | _ => σ
  end.

Definition setSlots (a : loc) (elems : list loc) (σ : store) : store :=
  match σ !! a with
  | Some (CArr _) => <[a := CArr elems]> σ
  | _ => σ
  end.

(** [Math.random() < 0.1].  The literal denotes the double nearest to
    1/10, which lies just above it with no double in between; a sample,
    itself a double, is below the one exactly when it is below the
    other, so the comparison is made with 1/10 over the rationals. *)
Definition FAILURE_RATE : Q := 1 # 10.

Definition sampleFails (sample : Q) : bool := negb (Qle_bool FAILURE_RATE sample).

Definition NETWORK_ERROR : Error := mkError "Network error: Unable to fetch courses".

(** [getCourses()], after its 800 ms timer: [sample] is the value that
    [Math.random()] returns.  [[...COURSES_DATA]] allocates a new array
    and fills it with the slots of [COURSES_DATA], that is with
    references to the same course objects. *)
Definition getCourses (sample : Q) (σ : store) : settled loc * store :=
  if sampleFails sample then (Rejected NETWORK_ERROR, σ)
  else
    match readSlots σ COURSES_DATA with
    | Some elems => let '(r, σ') := alloc (CArr elems) σ in (Resolved r, σ')
    | None => (Rejected (mkError "COURSES_DATA is not iterable"), σ)
    end.

(** [export const fetchCourses = async () => await mockCoursesAPI.getCourses()] *)
Definition fetchCourses := getCourses.

(** [COURSES_DATA.find((course) => course.id === id)]: the first slot
    whose object has the identifier, or [undefined]. *)
Fixpoint find (σ : store) (wanted : Z) (elems : list loc) : option loc :=
  match elems with
  | [] => None
  | l :: rest =>
      match readCourse σ l with
      | Some c => if id c =? wanted then Some l else find σ wanted rest
      | None => find σ wanted rest
      end
  end.

(** [getCourseById(id)], after its 300 ms timer.  [course || null]: an
    object is truthy, so the result is the reference found, and [null]
    ([None]) when [find] gave [undefined]. *)
Definition getCourseById (wanted : Z) (σ : store) : settled (option loc) :=
  match readSlots σ COURSES_DATA with
  | Some elems => Resolved (find σ wanted elems)
  | None => Rejected (mkError "COURSES_DATA.find is not a function")
  end.

End MockApi.

(** ** [src/app/page.jsx] *)

Module Dashboard.
Import JS.
Export MockApi.

(** The [Student] of the typedef at the top of the file; [createdAt]
    is the time value of the [Date], in milliseconds. *)
Record Student := mkStudent {
  id : string;
  name : string;
  email : string;
  courseId : Z;
  profileImage : option string;
  createdAt : Z
}.

(** The initial value of the [students] cell; [new Date("2025-01-15")]
    is midnight UTC of that day. *)
Definition initialStudents : list Student :=
  [ mkStudent "1" "Rajesh Patil" "rajesh.patil@gmail.com" 1
      (Some "/professional-man.png") 1736899200000;
    mkStudent "2" "Om Patel" "om.patel@gmail.com" 2
      (Some "/professional-man.png") 1740009600000;
    mkStudent "3" "Ansh Bari" "ansh.bari@gmail.com" 1
      (Some "/professional-man.png") 1741564800000 ].

(** The [useState] cells that [loadCourses] writes and the render
    function reads. *)
Record State := mkState {
  courses : list Course;
  loading : bool;
  error : option string
}.

(** [useState([])], [useState(true)], [useState(null)] *)
Definition initialState : State :=
  {| courses := []; loading := true; error := None |}.

(** One call of a state setter. *)
Inductive update : Type :=
| setCourses (cs : list Course)
| setLoading (b : bool)
| setError (e : option string).

Definition applyUpdate (s : State) (u : update) : State :=
  match u with
  | setCourses cs => {| courses := cs; loading := loading s; error := error s |}
  | setLoading b => {| courses := courses s; loading := b; error := error s |}
  | setError e => {| courses := courses s; loading := loading s; error := e |}
  end.

Definition run (us : list update) (s : State) : State := fold_left applyUpdate us s.

(** The states gone through while [us] runs, the last one last. *)
Fixpoint trace (us : list update) (s : State) : list State :=
  match us with
  | [] => []
  | u :: us' => applyUpdate s u :: trace us' (applyUpdate s u)
  end.

Definition LOAD_FAILED : string := "Failed to load courses. Please try again.".

(** [loadCourses], up to its first [await]: these setters run in the
    caller's turn. *)
Definition loadCoursesBegin : list update :=
  [setLoading true; setError None].

(** [loadCourses], from the moment [await fetchCourses()] returns or
    throws: the rest of the [try] block or the [catch] block, then the
    [finally] block.  The error caught is only passed to
    [console.error]. *)
Definition loadCoursesSettle (o : settled (list Course)) : list update :=
  match o with
  | Resolved coursesData => [setCourses coursesData; setLoading false]
  | Rejected err => [setError (Some LOAD_FAILED); setLoading false]
  end.

Definition loadCoursesWith (o : settled (list Course)) (s : State) : State :=
  run (loadCoursesSettle o) (run loadCoursesBegin s).

(** What [await fetchCourses()] hands to [loadCourses]: the courses of
    the array that the promise resolved with, or the error.  The slots
    of that array are those of [COURSES_DATA], which all hold course
    objects, so the array can be read. *)
Definition awaitFetchCourses (sample : Q) (σ : store) : settled (list Course) * store :=
  match fetchCourses sample σ with
  | (Resolved r, σ') => (Resolved (default [] (readCourses σ' r)), σ')
  | (Rejected e, σ') => (Rejected e, σ')
  end.

Definition loadCourses (sample : Q) (σ : store) (s : State) : State * store :=
  let '(o, σ') := awaitFetchCourses sample σ in (loadCoursesWith o s, σ').

(** The three [return]s of the component: [if (loading)], then
    [if (error)], then the dashboard itself. *)
Inductive view : Type :=
| Loading
| ErrorView (message : string)
| Ready (shown : list Course).

Definition render (s : State) : view :=
  if loading s then Loading
  else
    match error s with
    | Some msg => if truthy msg then ErrorView msg else Ready (courses s)
    | None => Ready (courses s)
    end.

(** [filteredStudents] *)
Definition matchesSearch (searchTerm : string) (student : Student) : bool :=
  includes (toLowerCase (name student)) (toLowerCase searchTerm)
  || includes (toLowerCase (email student)) (toLowerCase searchTerm).

Definition matchesCourse (selectedCourse : string) (student : Student) : bool :=
  String.eqb selectedCourse "all"
  || String.eqb (Number_toString (courseId student)) selectedCourse.

Definition filteredStudents (students : list Student)
    (searchTerm selectedCourse : string) : list Student :=
  List.filter
    (fun student => matchesSearch searchTerm student && matchesCourse selectedCourse student)
    students.

(** The options of the course [<select>]: [All Courses], whose value
    is ["all"], and one per course, whose value is
    [course.id.toString()]. *)
Inductive selection : Type :=
| allCourses
| oneCourse (courseId : Z).

Definition optionValue (sel : selection) : string :=
  match sel with
  | allCourses => "all"
  | oneCourse k => Number_toString k
  end.

(** [dashboardStats]; [now] is the time value of [new Date()]. *)
Record Stats := mkStats {
  totalStudents : Z;
  totalCourses : Z;
  recentEnrollments : Z;
  averagePerCourse : Z
}.

Definition THIRTY_DAYS : Z := 30 * 24 * 60 * 60 * 1000.

Definition isRecent (now : Z) (student : Student) : bool :=
  now - createdAt student <? THIRTY_DAYS.

Definition dashboardStats (students : list Student) (courses : list Course)
    (now : Z) : Stats :=
  let totalStudents := Z.of_nat (length students) in
  let totalCourses := Z.of_nat (length courses) in
  let recentEnrollments := Z.of_nat (length (List.filter (isRecent now) students)) in
  {| totalStudents := totalStudents;
     totalCourses := totalCourses;
     recentEnrollments := recentEnrollments;
     averagePerCourse :=
       if 0 <? totalCourses
       then Math_round (inject_Z totalStudents / inject_Z totalCourses)
       else 0 |}.

End Dashboard.

(** ** [src/components/student-form.jsx]

    The file and its earlier revision without the upload mode have the
    same [validateEmail], [validateForm] and [handleSubmit]. *)

Module StudentForm.
Import JS RegExp.

(** The controlled inputs of [formData]; all four start empty. *)
Record FormData := mkFormData {
  name : string;
  email : string;
  courseId : string;
  profileImage : string
}.

(** [[^\s@]] *)
Definition notSpaceNorAt (c : ascii) : bool :=
  negb (isWhiteSpace c || Ascii.eqb c "@").

(** [/^[^\s@]+@[^\s@]+\.[^\s@]+$/] *)
Definition re : regex :=
  Seq (Plus (Class notSpaceNorAt))
    (Seq (Char "@")
       (Seq (Plus (Class notSpaceNorAt))
          (Seq (Char ".")
             (Plus (Class notSpaceNorAt))))).

Definition validateEmail (email : string) : bool := test re email.

(** [newErrors]: a key is present when its field is [Some]. *)
Record Errors := mkErrors {
  nameError : option string;
  emailError : option string;
  courseIdError : option string
}.

Definition newErrors (formData : FormData) : Errors :=
  {| nameError :=
       if negb (truthy (trim (name formData))) then Some "Name is required"
       else if (String.length (trim (name formData)) <? 2)%nat
            then Some "Name must be at least 2 characters"
            else None;
     emailError :=
       if negb (truthy (trim (email formData))) then Some "Email is required"
       else if negb (validateEmail (email formData))
            then Some "Please enter a valid email address"
            else None;
     courseIdError :=
       if negb (truthy (courseId formData)) then Some "Please select a course"
       else None |}.

(** [Object.keys(newErrors).length === 0] *)
Definition validateForm (formData : FormData) : bool :=
  match newErrors formData with
  | {| nameError := None; emailError := None; courseIdError := None |} => true
  | _ => false
  end.

(** The object literal passed to [onSubmit]. *)
Record Submitted := mkSubmitted {
  submittedName : string;
  submittedEmail : string;
  submittedCourseId : number;
  submittedProfileImage : string
}.

(** The template literal that stands in for a missing image. *)
Definition placeholder (enteredName : string) : string :=
  "/placeholder.svg?height=40&width=40&query="
  +:+ encodeURIComponent (enteredName +:+ " professional photo").

(** [formData.profileImage || `/placeholder.svg?...`]: [None] when
    [encodeURIComponent] throws, which it is only asked to do for an
    empty [profileImage]. *)
Definition profileImageOrPlaceholder (formData : FormData) : option string :=
  if truthy (profileImage formData) then Some (profileImage formData)
  else if throwsURIError (name formData +:+ " professional photo") then None
  else Some (placeholder (name formData)).

(** [handleSubmit]: [None] when [onSubmit] is not called, because
    [validateForm] fails or because the [catch] block has caught the
    error of [encodeURIComponent]; otherwise the argument of the call. *)
Definition handleSubmit (formData : FormData) : option Submitted :=
  if negb (validateForm formData) then None
  else
    match profileImageOrPlaceholder formData with
    | None => None
    | Some image =>
        Some {| submittedName := trim (name formData);
                submittedEmail := toLowerCase (trim (email formData));
                submittedCourseId := Number_parseInt (courseId formData);
                submittedProfileImage := image |}
    end.

End StudentForm.

(** ** The vocabulary of the specification

    These definitions follow the words of the specification, not the
    code; the properties below relate the two. *)

Module Spec.
Import JS.

(** [l'] is the subsequence of [l] made of exactly the elements that
    satisfy [P], in the order of [l], each as often as [l] has it. *)
Inductive selects {A : Type} (P : A -> Prop) : list A -> list A -> Prop :=
| selects_nil : selects P [] []
| selects_keep x l l' : P x -> selects P l l' -> selects P (x :: l) (x :: l')
| selects_drop x l l' : ~ P x -> selects P l l' -> selects P (x :: l) l'.

(** [t] occurs in [s] when the case of letters is ignored. *)
Definition containsIgnoringCase (s t : string) : Prop :=
  exists pre suf, toLowerCase s = pre +:+ toLowerCase t +:+ suf.

(** The trailing 30-day window at [now]: the instants later than 30
    days before [now] and not later than [now]. *)
Definition inTrailingWindow (now t : Z) : bool :=
  (now - 30 * 86400000 <? t) && (t <=? now).

(** [k] is a nearest integer to [n / m], the upper one on a tie. *)
Definition nearestInteger (n m k : Z) : Prop :=
  (2 * k - 1) * m <= 2 * n < (2 * k + 1) * m.

(** Every code unit of [s] satisfies [f]. *)
Fixpoint allChars (f : ascii -> bool) (s : string) : bool :=
  match s with
  | EmptyString => true
  | String c s' => f c && allChars f s'
  end.

(** A decimal digit. *)
Definition isDecimalDigit (c : ascii) : bool :=
  ((48 <=? code c) && (code c <=? 57))%N.

(** A character that is neither white space nor [@]. *)
Definition plainChar (c : ascii) : bool :=
  negb (isWhiteSpace c) && negb (Ascii.eqb c "@").

(** At least one character, all of them plain. *)
Definition plainPart (s : string) : Prop :=
  s <> EmptyString /\ allChars plainChar s = true.

(** What follows the last occurrence of [c] in [s], if [c] occurs. *)
Fixpoint afterLast (c : ascii) (s : string) : option string :=
  match s with
  | EmptyString => None
  | String a s' =>
      match afterLast c s' with
      | Some t => Some t
      | None => if Ascii.eqb a c then Some s' else None
      end
  end.

(** The string begins, or ends, with white space. *)
Definition startsWithSpace (s : string) : bool :=
  match s with
  | EmptyString => false
  | String c _ => isWhiteSpace c
  end.

Fixpoint endsWithSpace (s : string) : bool :=
  match s with
  | EmptyString => false
  | String c EmptyString => isWhiteSpace c
  | String _ s' => endsWithSpace s'
  end.

(** [t] is [s] without its leading and trailing white space. *)
Definition isTrimOf (t s : string) : Prop :=
  exists pre suf,
    s = pre +:+ t +:+ suf
    /\ allChars isWhiteSpace pre = true /\ allChars isWhiteSpace suf = true
    /\ startsWithSpace t = false /\ endsWithSpace t = false.

(** No character of [s] has a lower-case form other than itself. *)
Definition isLowerCase (s : string) : Prop :=
  allChars (fun c => negb (isUpper c)) s = true.

End Spec.

(** ** Runs used as examples below *)

Module Scenario.
Import JS Dashboard.

(** The store after two calls of [getCourses] that both succeed, the
    module freshly loaded. *)
Definition afterTwoFetches : store :=
  snd (getCourses (1 # 2) (snd (getCourses (1 # 2) moduleStore))).

(** The first course object renamed, through any reference to it. *)
Definition afterRenaming : store := setName 1%positive "Renamed" afterTwoFetches.

(** A load that succeeds, then a reload whose fetch fails. *)
Definition firstLoad : State * store := loadCourses (1 # 2) moduleStore initialState.

Definition failedReload : State * store :=
  loadCourses (1 # 20) (snd firstLoad) (fst firstLoad).

End Scenario.

(** ** [src/app/page.jsx]: the handlers of the roster *)

Module Roster.
Import JS.
Import Dashboard.

(** The object that the form passes to [onSubmit], its course
    identifier being a number. *)
Record StudentData := mkStudentData {
  name : string;
  email : string;
  courseId : Z;
  profileImage : string
}.

(** The [useState] cells that the handlers write. *)
Record Page := mkPage {
  students : list Student;
  editingStudent : option Student;
  isFormOpen : bool
}.

Definition initialPage : Page :=
  {| students := initialStudents; editingStudent := None; isFormOpen := false |}.

(** [{ ...studentData, id: Date.now().toString(), createdAt: new Date() }];
    [dateNow] and [newDate] are the two readings of the clock. *)
Definition newStudent (studentData : StudentData) (dateNow newDate : Z) : Student :=
  {| Dashboard.id := Number_toString dateNow;
     Dashboard.name := name studentData;
     Dashboard.email := email studentData;
     Dashboard.courseId := courseId studentData;
     Dashboard.profileImage := Some (profileImage studentData);
     Dashboard.createdAt := newDate |}.

Definition handleAddStudent (studentData : StudentData) (dateNow newDate : Z)
    (p : Page) : Page :=
  {| students := students p ++ [newStudent studentData dateNow newDate];
     editingStudent := editingStudent p;
     isFormOpen := false |}.

(** [{ ...student, ...studentData }] *)
Definition merge (student : Student) (studentData : StudentData) : Student :=
  {| Dashboard.id := Dashboard.id student;
     Dashboard.name := name studentData;
     Dashboard.email := email studentData;
     Dashboard.courseId := courseId studentData;
     Dashboard.profileImage := Some (profileImage studentData);
     Dashboard.createdAt := Dashboard.createdAt student |}.

Definition handleEditStudent (studentData : StudentData) (p : Page) : Page :=
  match editingStudent p with
  | None => p
  | Some editing =>
      {| students :=
           List.map
             (fun student =>
                if String.eqb (Dashboard.id student) (Dashboard.id editing)
                then merge student studentData
                else student)
             (students p);
         editingStudent := None;
         isFormOpen := false |}
  end.

Definition handleDeleteStudent (studentId : string) (p : Page) : Page :=
  {| students :=
       List.filter (fun student => negb (String.eqb (Dashboard.id student) studentId))
         (students p);
     editingStudent := editingStudent p;
     isFormOpen := isFormOpen p |}.

Definition openEditForm (student : Student) (p : Page) : Page :=
  {| students := students p; editingStudent := Some student; isFormOpen := true |}.

Definition openAddForm (p : Page) : Page :=
  {| students := students p; editingStudent := None; isFormOpen := true |}.

(** [onSubmit={editingStudent ? handleEditStudent : handleAddStudent}] *)
Definition onSubmit (studentData : StudentData) (dateNow newDate : Z) (p : Page) : Page :=
  match editingStudent p with
  | Some _ => handleEditStudent studentData p
  | None => handleAddStudent studentData dateNow newDate p
  end.

End Roster.

(** ** [src/app/page.jsx]: [loadCourses] called again before it is done *)

Module Overlap.
Import JS Dashboard.

(** Two invocations of [loadCourses] in flight together, as when the
    effect runs twice: both have passed their first setters before
    either fetch settles; [first] is the outcome that settles first. *)
Definition overlappingLoads (first second : settled (list Course)) (s : State) : State :=
  run (loadCoursesSettle second)
    (run (loadCoursesSettle first)
       (run loadCoursesBegin (run loadCoursesBegin s))).

(** [loadCourses] called once per sample, each call after the one
    before is done, as when the retry button is used. *)
Fixpoint loadMany (samples : list Q) (σ : store) (s : State) : State * store :=
  match samples with
  | [] => (s, σ)
  | sample :: rest =>
      let '(s1, σ1) := loadCourses sample σ s in loadMany rest σ1 s1
  end.

End Overlap.

(** ** [src/lib/mock-api.js]: [getCourses] called again and again *)

Module Calls.
Import JS MockApi.

(** One call of [getCourses] per sample, each on the store that the
    call before has left; the outcomes come in the order of the calls. *)
Fixpoint getCoursesMany (samples : list Q) (σ : store) : list (settled loc) * store :=
  match samples with
  | [] => ([], σ)
  | sample :: rest =>
      let '(o, σ1) := getCourses sample σ in
      let '(os, σ2) := getCoursesMany rest σ1 in
      (o :: os, σ2)
  end.

(** The arrays that the calls resolved with. *)
Fixpoint resolved (os : list (settled loc)) : list loc :=
  match os with
  | [] => []
  | Resolved r :: rest => r :: resolved rest
  | Rejected _ :: rest => resolved rest
  end.

End Calls.

(** ** The student list component: [getCourseName] *)

Module StudentList.
Import JS MockApi.

(** [courses.find((c) => c.id === courseId)], then
    [course?.name || "Unknown Course"]. *)
Definition getCourseName (courses : list Course) (courseId : Z) : string :=
  match List.find (fun c => id c =? courseId) courses with
  | Some course => if truthy (name course) then name course else "Unknown Course"
  | None => "Unknown Course"
  end.

End StudentList.

(** ** [src/components/student-form.jsx]: the form opened on a student *)

Module EditForm.
Import JS StudentForm.

(** The effect on [student]: each input takes the field of the student,
    [courseId] through [toString()], or the empty string when the field
    is missing or empty. *)
Definition populate (student : Dashboard.Student) : FormData :=
  {| name := Dashboard.name student;
     email := Dashboard.email student;
     courseId := Number_toString (Dashboard.courseId student);
     profileImage :=
       match Dashboard.profileImage student with
       | Some image => image
       | None => EmptyString
       end |}.

(** What [onSubmit] receives, seen from the page; there is none when the
    course identifier is [NaN] or infinite, which a [Student] cannot
    hold here. *)
Definition studentDataOf (submitted : Submitted) : option Roster.StudentData :=
  match submittedCourseId submitted with
  | Num k =>
      Some {| Roster.name := submittedName submitted;
              Roster.email := submittedEmail submitted;
              Roster.courseId := k;
              Roster.profileImage := submittedProfileImage submitted |}
  | _ => None
  end.

End EditForm.

(** ** More vocabulary of the properties *)

Module Spec2.
Import JS Spec.

(** A character that [encodeURIComponent] may leave in its result. *)
Definition isUriSafe (c : ascii) : bool := isUriUnreserved c || Ascii.eqb c "%".

(** A record as the form lets it through: a name of two characters or
    more without white space around it, an email that the form accepts
    and that is in lower case, and an image. *)
Definition wellFormed (student : Dashboard.Student) : Prop :=
  (2 <= String.length (Dashboard.name student))%nat
  /\ trim (Dashboard.name student) = Dashboard.name student
  /\ StudentForm.validateEmail (Dashboard.email student) = true
  /\ toLowerCase (Dashboard.email student) = Dashboard.email student
  /\ exists image, Dashboard.profileImage student = Some image /\ image <> EmptyString.

End Spec2.

(** * Properties *)

(** ** Strings *)

(** [simpl] is made to compute [+:+] again on a string that starts with
    a known character. *)
#[local] Arguments String.append !_ _ / : simpl nomatch.

Section StringFacts.
Import JS.

Lemma append_empty_r (s : string) : s +:+ EmptyString = s.
Proof. induction s as [|c s IH]; simpl; congruence. Qed.

Lemma append_assoc (s1 s2 s3 : string) : (s1 +:+ s2) +:+ s3 = s1 +:+ s2 +:+ s3.
Proof. induction s1 as [|c s1 IH]; simpl; congruence. Qed.

Lemma append_eq_empty (s1 s2 : string) : s1 +:+ s2 = EmptyString -> s1 = EmptyString /\ s2 = EmptyString.
Proof. destruct s1; simpl; [auto | discriminate]. Qed.

Lemma toLowerCase_append (s1 s2 : string) :
  toLowerCase (s1 +:+ s2) = toLowerCase s1 +:+ toLowerCase s2.
Proof. induction s1 as [|c s1 IH]; simpl; congruence. Qed.

Lemma startsWith_spec (s p : string) :
  startsWith s p = true <-> exists suf, s = p +:+ suf.
Proof.
  revert s; induction p as [|b p IH]; intros s; simpl.
  - split; [exists s; reflexivity | reflexivity].
  - destruct s as [|a s].
    + split; [discriminate | intros [suf H]; discriminate].
    + rewrite andb_true_iff, Ascii.eqb_eq, IH. split.
      * intros [-> [suf ->]]. exists suf; reflexivity.
      * intros [suf H]. injection H as -> ->. eauto.
Qed.

Lemma includes_spec (s sub : string) :
  includes s sub = true <-> exists pre suf, s = pre +:+ sub +:+ suf.
Proof.
  induction s as [|a s IH].
  - cbn [includes]. rewrite orb_false_r, startsWith_spec. split.
    + intros [suf H]. exists EmptyString, suf. exact H.
    + intros (pre & suf & H). symmetry in H.
      apply append_eq_empty in H as [-> H]. exists suf. symmetry; exact H.
  - cbn [includes]. rewrite orb_true_iff, startsWith_spec, IH. split.
    + intros [[suf H] | (pre & suf & H)].
      * exists EmptyString, suf. exact H.
      * exists (String a pre), suf. simpl. rewrite <- H. reflexivity.
    + intros (pre & suf & H). destruct pre as [|b pre].
      * left. exists suf. exact H.
      * right. simpl in H. injection H as _ H. eauto.
Qed.

Lemma includes_empty (s : string) : includes s EmptyString = true.
Proof. apply includes_spec. exists EmptyString, s. reflexivity. Qed.

End StringFacts.

(** ** Numbers and their decimal strings *)

Section NumberFacts.
Import JS Spec.

Lemma pretty_N_char_digit (d : N) :
  (d < 10)%N ->
  isDecimalDigit (pretty_N_char d) = true
  /\ digitIn 10 (pretty_N_char d) = Some (Z.of_N d).
Proof.
  intros H.
  assert (d = 0 \/ d = 1 \/ d = 2 \/ d = 3 \/ d = 4 \/ d = 5
          \/ d = 6 \/ d = 7 \/ d = 8 \/ d = 9)%N as E by lia.
  repeat (destruct E as [->|E]; [split; reflexivity|]). subst d. split; reflexivity.
Qed.

Lemma pretty_N_go_digits (x : N) (s : string) :
  allChars isDecimalDigit s = true ->
  allChars isDecimalDigit (pretty_N_go x s) = true.
Proof.
  revert s. induction (N.lt_wf_0 x) as [x _ IH]. intros s Hs.
  destruct (N.eq_dec x 0%N) as [->|Hx].
  - rewrite pretty_N_go_0. exact Hs.
  - rewrite pretty_N_go_step by lia. apply IH.
    + apply N.div_lt; lia.
    + simpl. rewrite Hs.
      destruct (pretty_N_char_digit (x mod 10)%N) as [-> _]; [|reflexivity].
      apply N.mod_lt. discriminate.
Qed.

Lemma pretty_N_go_nonempty (x : N) (s : string) :
  (0 < x)%N -> pretty_N_go x s <> EmptyString.
Proof.
  revert s. induction (N.lt_wf_0 x) as [x _ IH]. intros s Hx.
  rewrite pretty_N_go_step by exact Hx.
  destruct (N.eq_dec (x / 10)%N 0%N) as [E|E].
  - rewrite E, pretty_N_go_0. discriminate.
  - apply IH; [apply N.div_lt; lia | apply N.neq_0_lt_0; exact E].
Qed.

(** Reading back the digits that [pretty_N_go] has put in front of [s]. *)
Lemma parseDigits_pretty_N_go (x : N) (s : string) (seen : bool) :
  (0 < x)%N ->
  parseDigits 10 (pretty_N_go x s) seen 0 = parseDigits 10 s true (Z.of_N x).
Proof.
  revert s seen. induction (N.lt_wf_0 x) as [x _ IH]. intros s seen Hx.
  rewrite pretty_N_go_step by exact Hx.
  assert (Hd : (x mod 10 < 10)%N) by (apply N.mod_lt; discriminate).
  destruct (pretty_N_char_digit _ Hd) as [_ Hv].
  assert (Hx10 : Z.of_N x = Z.of_N (x / 10)%N * 10 + Z.of_N (x mod 10)%N).
  { rewrite (N.div_mod x 10%N) at 1 by discriminate. lia. }
  destruct (N.eq_dec (x / 10)%N 0%N) as [E|E].
  - rewrite E, pretty_N_go_0. simpl. rewrite Hv. rewrite Hx10, E. reflexivity.
  - rewrite IH; [|apply N.div_lt; lia|apply N.neq_0_lt_0; exact E].
    simpl. rewrite Hv. rewrite Hx10. reflexivity.
Qed.

Lemma digit_facts (c : ascii) :
  isDecimalDigit c = true ->
  isWhiteSpace c = false /\ Ascii.eqb c "-" = false /\ Ascii.eqb c "+" = false
  /\ Ascii.eqb c "x" = false /\ Ascii.eqb c "X" = false.
Proof.
  unfold isDecimalDigit, isWhiteSpace. intros H.
  apply andb_true_iff in H as [H1 H2]. apply N.leb_le in H1, H2.
  split.
  { repeat (apply orb_false_iff; split);
      [apply andb_false_iff; right; apply N.leb_gt; lia | apply N.eqb_neq; lia ..]. }
  repeat split; apply Ascii.eqb_neq; intros ->; vm_compute in H1, H2;
    first [apply H1; reflexivity | apply H2; reflexivity].
Qed.

(** On a string of decimal digits [parseInt] has nothing to skip. *)
Lemma parseInt_digits (s : string) :
  allChars isDecimalDigit s = true ->
  parseIntMath s
  = match parseDigits 10 s false 0 with Some v => Some (1 * v) | None => None end.
Proof.
  intros H. unfold parseIntMath. destruct s as [|c s]; [reflexivity|].
  simpl in H. apply andb_true_iff in H as [Hc Hs].
  destruct (digit_facts c Hc) as (Hw & Hm & Hp & _).
  cbn [trimStart]. rewrite Hw. cbn [stripSign]. rewrite Hm, Hp.
  destruct s as [|d s]; [reflexivity|].
  simpl in Hs. apply andb_true_iff in Hs as [Hd _].
  destruct (digit_facts d Hd) as (_ & _ & _ & Hx & HX).
  cbn [stripHexPrefix]. rewrite Hx, HX, andb_false_r. reflexivity.
Qed.

Lemma parseInt_minus_digits (s : string) :
  allChars isDecimalDigit s = true ->
  parseIntMath (String "-" s)
  = match parseDigits 10 s false 0 with Some v => Some (-1 * v) | None => None end.
Proof.
  intros H. unfold parseIntMath.
  cbn [trimStart]. change (isWhiteSpace "-") with false. cbn iota.
  cbn [stripSign]. change (Ascii.eqb "-" "-") with true. cbn iota.
  destruct s as [|c s]; [reflexivity|].
  destruct s as [|d s]; [reflexivity|].
  simpl in H. apply andb_true_iff in H as [_ H]. apply andb_true_iff in H as [Hd _].
  destruct (digit_facts d Hd) as (_ & _ & _ & Hx & HX).
  cbn [stripHexPrefix]. rewrite Hx, HX, andb_false_r. reflexivity.
Qed.

Lemma pretty_Npos (p : positive) : pretty (N.pos p) = pretty_N_go (N.pos p) EmptyString.
Proof. reflexivity. Qed.

(** The integer that [parseInt] reads in what [toString] prints is the
    integer printed. *)
Lemma parseInt_toString (k : Z) : parseIntMath (Number_toString k) = Some k.
Proof.
  unfold Number_toString. destruct k as [|p|p].
  - reflexivity.
  - change (pretty (Z.pos p)) with (pretty_N_go (N.pos p) EmptyString).
    rewrite parseInt_digits by (apply pretty_N_go_digits; reflexivity).
    rewrite parseDigits_pretty_N_go by reflexivity. simpl. reflexivity.
  - change (pretty (Z.neg p)) with (String "-" (pretty_N_go (N.pos p) EmptyString)).
    rewrite parseInt_minus_digits by (apply pretty_N_go_digits; reflexivity).
    rewrite parseDigits_pretty_N_go by reflexivity. simpl. reflexivity.
Qed.

Lemma toString_inj (j k : Z) : Number_toString j = Number_toString k -> j = k.
Proof.
  intros H. apply (f_equal parseIntMath) in H.
  rewrite !parseInt_toString in H. congruence.
Qed.

Lemma toString_not_all (k : Z) : Number_toString k <> "all".
Proof.
  intros H. apply (f_equal parseIntMath) in H.
  rewrite parseInt_toString in H. discriminate H.
Qed.

Lemma roundToDouble_small (a : Z) : a < 2 ^ 53 -> roundToDouble a = a.
Proof.
  intros H. unfold roundToDouble. apply Z.ltb_lt in H. rewrite H. reflexivity.
Qed.

(** An integer up to 2^53 in magnitude is a double. *)
Lemma toNumber_exact (k : Z) : Z.abs k <= 9007199254740992 -> toNumber k = Num k.
Proof.
  intros H. destruct (Z.eq_dec (Z.abs k) 9007199254740992) as [E|E].
  - assert (k = 9007199254740992 \/ k = - 9007199254740992) as [->| ->] by lia;
      vm_compute; reflexivity.
  - assert (Hlt : Z.abs k < 2 ^ 53) by (change (2 ^ 53) with 9007199254740992; lia).
    unfold toNumber. rewrite (roundToDouble_small _ Hlt).
    assert (Hbig : 2 ^ 53 < 2 ^ 1024) by (vm_compute; reflexivity).
    destruct (Z.leb_spec (2 ^ 1024) (Z.abs k)) as [Hge|_]; [exfalso; lia|].
    f_equal. lia.
Qed.

(** [parseInt] reads back what [toString] prints of such an integer. *)
Lemma Number_parseInt_toString (k : Z) :
  Z.abs k <= 9007199254740992 -> Number_parseInt (Number_toString k) = Num k.
Proof.
  intros H. unfold Number_parseInt. rewrite parseInt_toString. apply toNumber_exact, H.
Qed.

End NumberFacts.

(** ** Regular expressions: [test] decides the language *)

Section RegExpFacts.
Import RegExp Spec.

Lemma nullable_matches (r : regex) : nullable r = true <-> matches r EmptyString.
Proof.
  split.
  - induction r; simpl; intros H; try discriminate.
    + constructor.
    + apply andb_true_iff in H as [H1 H2].
      change (matches (Seq r1 r2) (EmptyString +:+ EmptyString)). constructor; auto.
    + apply orb_true_iff in H as [H|H]; [apply MAltL | apply MAltR]; auto.
    + constructor.
  - intros H. remember EmptyString as s eqn:Hs in H.
    induction H; simpl; try discriminate; try reflexivity.
    + apply append_eq_empty in Hs as [-> ->]. rewrite IHmatches1, IHmatches2; auto.
    + rewrite IHmatches; auto.
    + rewrite IHmatches; auto. apply orb_true_r.
Qed.

Lemma derive_sound (a : ascii) (r : regex) (s : string) :
  matches (derive a r) s -> matches r (String a s).
Proof.
  revert s; induction r; simpl; intros s H.
  - inversion H.
  - inversion H.
  - destruct (Ascii.eqb_spec a c) as [->|]; inversion H; subst. constructor.
  - destruct (member a) eqn:Hm; inversion H; subst. constructor; exact Hm.
  - destruct (nullable r1) eqn:Hn.
    + inversion H; subst.
      * match goal with Hs : matches (Seq _ _) _ |- _ => inversion Hs; subst end.
        change (matches (Seq r1 r2) (String a s1 +:+ s2)). constructor; auto.
      * change (matches (Seq r1 r2) (EmptyString +:+ String a s)).
        constructor; [apply nullable_matches; exact Hn | auto].
    + inversion H; subst.
      change (matches (Seq r1 r2) (String a s1 +:+ s2)). constructor; auto.
  - inversion H; subst; [apply MAltL | apply MAltR]; auto.
  - inversion H; subst.
    change (matches (Star r) (String a s1 +:+ s2)). constructor; auto.
Qed.

Lemma derive_complete (a : ascii) (r : regex) (s : string) :
  matches r (String a s) -> matches (derive a r) s.
Proof.
  intros H. remember (String a s) as s0 eqn:Hs. revert a s Hs.
  induction H; intros a s0 Hs; simpl; try discriminate.
  - injection Hs as -> <-. rewrite Ascii.eqb_refl. constructor.
  - injection Hs as -> <-. rewrite H. constructor.
  - destruct s1 as [|b s1]; simpl in Hs.
    + subst s2. apply nullable_matches in H. rewrite H. apply MAltR. auto.
    + injection Hs as -> <-.
      destruct (nullable r1); [apply MAltL|]; constructor; auto.
  - apply MAltL; auto.
  - apply MAltR; auto.
  - destruct s1 as [|b s1]; simpl in Hs.
    + subst s2. apply (IHmatches2 a s0 eq_refl).
    + injection Hs as -> <-. constructor; auto.
Qed.

Lemma test_matches (r : regex) (s : string) : test r s = true <-> matches r s.
Proof.
  revert r; induction s as [|a s IH]; intros r; simpl.
  - apply nullable_matches.
  - rewrite IH. split; [apply derive_sound | apply derive_complete].
Qed.

(** A starred class matches the strings made of members of the class. *)
Lemma matches_Star_Class (f : ascii -> bool) (s : string) :
  matches (Star (Class f)) s <-> allChars f s = true.
Proof.
  split.
  - intros H. remember (Star (Class f)) as r eqn:Hr.
    induction H; try discriminate; [reflexivity|].
    injection Hr as ->. inversion H; subst. simpl.
    rewrite IHmatches2 by reflexivity.
    match goal with Hm : f _ = true |- _ => rewrite Hm end. reflexivity.
  - induction s as [|c s IH]; simpl; intros H.
    + constructor.
    + apply andb_true_iff in H as [Hc Hs].
      change (matches (Star (Class f)) (String c EmptyString +:+ s)).
      constructor; [constructor; exact Hc | auto].
Qed.

Lemma matches_Plus_Class (f : ascii -> bool) (s : string) :
  matches (Plus (Class f)) s <-> s <> EmptyString /\ allChars f s = true.
Proof.
  unfold Plus. split.
  - intros H. inversion H; subst.
    match goal with Hc : matches (Class f) _ |- _ => inversion Hc; subst end.
    simpl. split; [discriminate|].
    apply andb_true_iff. split; [assumption | apply matches_Star_Class; assumption].
  - intros [Hne H]. destruct s as [|c s]; [congruence|].
    simpl in H. apply andb_true_iff in H as [Hc Hs].
    change (matches (Seq (Class f) (Star (Class f))) (String c EmptyString +:+ s)).
    constructor; [constructor; exact Hc | apply matches_Star_Class; exact Hs].
Qed.

End RegExpFacts.

(** ** The student form: [validateEmail] *)

Section ValidateEmail.
Import JS RegExp Spec StudentForm.

Lemma allChars_ext (f g : ascii -> bool) (s : string) :
  (forall c, f c = g c) -> allChars f s = allChars g s.
Proof. intros E. induction s as [|c s IH]; simpl; [reflexivity | rewrite E, IH; reflexivity]. Qed.

Lemma notSpaceNorAt_plainChar (c : ascii) : notSpaceNorAt c = plainChar c.
Proof. unfold notSpaceNorAt, plainChar. apply negb_orb. Qed.

Lemma matches_part (s : string) :
  matches (Plus (Class notSpaceNorAt)) s <-> plainPart s.
Proof.
  rewrite matches_Plus_Class. unfold plainPart.
  rewrite (allChars_ext _ _ s notSpaceNorAt_plainChar). reflexivity.
Qed.

Lemma matches_Char_inv (c : ascii) (s : string) :
  matches (Char c) s -> s = String c EmptyString.
Proof. intros H; inversion H; reflexivity. Qed.

Lemma matches_Seq_inv (r1 r2 : regex) (s : string) :
  matches (Seq r1 r2) s -> exists s1 s2, s = s1 +:+ s2 /\ matches r1 s1 /\ matches r2 s2.
Proof. intros H; inversion H; subst; eauto. Qed.

(** The strings that the expression of [validateEmail] accepts. *)
Lemma validateEmail_shape (e : string) :
  validateEmail e = true <->
  exists l x y, e = l +:+ "@" +:+ x +:+ "." +:+ y
                /\ plainPart l /\ plainPart x /\ plainPart y.
Proof.
  unfold validateEmail. rewrite test_matches. unfold re. split.
  - intros H.
    apply matches_Seq_inv in H as (l & s1 & -> & Hl & H).
    apply matches_Seq_inv in H as (a & s2 & -> & Ha & H).
    apply matches_Seq_inv in H as (x & s3 & -> & Hx & H).
    apply matches_Seq_inv in H as (d & y & -> & Hd & Hy).
    apply matches_Char_inv in Ha as ->. apply matches_Char_inv in Hd as ->.
    exists l, x, y. rewrite <- !matches_part. auto.
  - intros (l & x & y & -> & Hl & Hx & Hy).
    rewrite <- matches_part in Hl, Hx, Hy.
    apply MSeq; [assumption|]. apply MSeq; [apply MChar|].
    apply MSeq; [assumption|]. apply MSeq; [apply MChar | assumption].
Qed.

(** C9, as stated, fails on its last clause: the address ["a@b.c."] is
    accepted although no character follows its last dot.  The expression
    is satisfied by the split at the first dot, whose right-hand side
    ["c."] is made of characters of the class. *)
Lemma validateEmail_accepts_trailing_dot :
  validateEmail "a@b.c." = true /\ afterLast "." "a@b.c." = Some EmptyString.
Proof. split; reflexivity. Qed.

(** C9 (amended): [validateEmail] accepts ["a@b.co"] and rejects ["a@b"],
    ["a b@c.com"] and the empty string.  It accepts exactly the strings
    of the form [l@x.y] where each of [l], [x] and [y] has at least one
    character and holds neither white space nor [@]; [x] and [y] may
    hold dots themselves, so the dot of the form is some dot after the
    [@], not necessarily the last one. *)
Theorem validateEmail_spec :
  validateEmail "a@b.co" = true
  /\ validateEmail "a@b" = false
  /\ validateEmail "a b@c.com" = false
  /\ validateEmail EmptyString = false
  /\ forall e : string,
       validateEmail e = true <->
       exists l x y, e = l +:+ "@" +:+ x +:+ "." +:+ y
                     /\ plainPart l /\ plainPart x /\ plainPart y.
Proof.
  repeat split; try reflexivity; apply validateEmail_shape.
Qed.

End ValidateEmail.

(** ** The mock API *)

Section MockApiFacts.
Import JS MockApi.

Lemma sampleFails_true (sample : Q) :
  sampleFails sample = true <-> (sample < FAILURE_RATE)%Q.
Proof.
  unfold sampleFails. rewrite negb_true_iff, <- not_true_iff_false, Qle_bool_iff.
  split; [apply Qnot_le_lt | apply Qlt_not_le].
Qed.

Lemma sampleFails_false (sample : Q) :
  sampleFails sample = false <-> ~ (sample < FAILURE_RATE)%Q.
Proof. rewrite <- sampleFails_true. symmetry. apply not_true_iff_false. Qed.

Lemma alloc_inv (v : cell) (σ σ' : store) (l : loc) :
  alloc v σ = (l, σ') -> σ !! l = None /\ σ' = <[l := v]> σ.
Proof.
  unfold alloc. intros [= <- <-]. split; [|reflexivity].
  apply not_elem_of_dom, is_fresh.
Qed.

Lemma readSlots_Some (σ : store) (a : loc) (elems : list loc) :
  readSlots σ a = Some elems <-> σ !! a = Some (CArr elems).
Proof.
  unfold readSlots. destruct (σ !! a) as [[c|e]|]; split; congruence.
Qed.

(** Writing an array where there was no object changes no object. *)
Lemma readCourse_insert_CArr (σ : store) (r l : loc) (elems : list loc) :
  (forall c, σ !! r <> Some (CObj c)) ->
  readCourse (<[r := CArr elems]> σ) l = readCourse σ l.
Proof.
  intros Hr. unfold readCourse. destruct (decide (r = l)) as [->|Hne].
  - rewrite lookup_insert_eq. destruct (σ !! l) as [[c|e]|] eqn:E; try reflexivity.
    destruct (Hr c). reflexivity.
  - rewrite lookup_insert_ne by exact Hne. reflexivity.
Qed.

Lemma readSlots_insert_ne (σ : store) (r a : loc) (v : cell) :
  r <> a -> readSlots (<[r := v]> σ) a = readSlots σ a.
Proof. intros Hne. unfold readSlots. rewrite lookup_insert_ne by exact Hne. reflexivity. Qed.

Lemma readCourses_insert_CArr (σ : store) (r a : loc) (elems : list loc) :
  (forall c, σ !! r <> Some (CObj c)) -> r <> a ->
  readCourses (<[r := CArr elems]> σ) a = readCourses σ a.
Proof.
  intros Hr Hne. unfold readCourses. rewrite readSlots_insert_ne by exact Hne.
  destruct (readSlots σ a) as [slots|]; [|reflexivity].
  apply mapM_ext. intros l. apply readCourse_insert_CArr, Hr.
Qed.

(** A successful call allocated one array, filled with the slots of
    [COURSES_DATA], and did nothing else. *)
Lemma getCourses_Resolved_inv (sample : Q) (σ σ' : store) (r : loc) :
  getCourses sample σ = (Resolved r, σ') ->
  exists elems, σ !! COURSES_DATA = Some (CArr elems)
                /\ σ !! r = None /\ σ' = <[r := CArr elems]> σ.
Proof.
  unfold getCourses. destruct (sampleFails sample); [discriminate|].
  destruct (readSlots σ COURSES_DATA) as [elems|] eqn:E; [|discriminate].
  destruct (alloc (CArr elems) σ) as [l σ1] eqn:A. intros [= -> ->].
  apply alloc_inv in A as [Hl ->]. apply readSlots_Some in E. eauto.
Qed.

Lemma getCourses_not_failing (sample : Q) (σ : store) (elems : list loc) :
  sampleFails sample = false -> σ !! COURSES_DATA = Some (CArr elems) ->
  getCourses sample σ
  = (Resolved (fresh (dom σ)), <[fresh (dom σ) := CArr elems]> σ).
Proof.
  intros Hs Hc. unfold getCourses. rewrite Hs.
  apply readSlots_Some in Hc. rewrite Hc. reflexivity.
Qed.

(** A call, failed or not, leaves what the catalog shows as it was. *)
Lemma getCourses_frame_catalog (sample : Q) (σ : store) :
  readCourses (snd (getCourses sample σ)) COURSES_DATA = readCourses σ COURSES_DATA.
Proof.
  unfold getCourses. destruct (sampleFails sample); [reflexivity|].
  destruct (readSlots σ COURSES_DATA) as [elems|] eqn:E; [|reflexivity].
  apply readSlots_Some in E. cbn [alloc snd].
  pose proof (is_fresh (dom σ)) as Hfresh. apply not_elem_of_dom in Hfresh.
  apply readCourses_insert_CArr; congruence.
Qed.

(** C1: the sample decides the outcome.  Below the failure rate the call
    rejects with the fixed message and leaves the store alone; otherwise
    it resolves with a newly allocated array that shows the whole
    catalog, its four courses in the order of their definition. *)
Theorem getCourses_outcome (sample : Q) (σ : store) :
  readCourses σ COURSES_DATA = Some catalog ->
  ((sample < FAILURE_RATE)%Q ->
     getCourses sample σ
     = (Rejected (mkError "Network error: Unable to fetch courses"), σ))
  /\ (~ (sample < FAILURE_RATE)%Q ->
        exists r σ',
          getCourses sample σ = (Resolved r, σ')
          /\ σ !! r = None
          /\ readCourses σ' r = Some catalog
          /\ length catalog = 4%nat
          /\ readCourses σ' COURSES_DATA = Some catalog).
Proof.
  intros Hcat. split.
  - intros Hlt. apply sampleFails_true in Hlt.
    unfold getCourses. rewrite Hlt. reflexivity.
  - intros Hge. apply sampleFails_false in Hge.
    unfold readCourses in Hcat.
    destruct (readSlots σ COURSES_DATA) as [elems|] eqn:E; [|discriminate].
    apply readSlots_Some in E.
    pose proof (is_fresh (dom σ)) as Hfresh. apply not_elem_of_dom in Hfresh.
    assert (Hobj : forall c, σ !! fresh (dom σ) <> Some (CObj c)) by (intros c; congruence).
    assert (Hne : fresh (dom σ) <> COURSES_DATA) by congruence.
    exists (fresh (dom σ)), (<[fresh (dom σ) := CArr elems]> σ).
    split; [apply getCourses_not_failing; assumption|].
    split; [exact Hfresh|].
    split; [|split; [reflexivity|]].
    + unfold readCourses, readSlots. rewrite lookup_insert_eq.
      rewrite <- Hcat. apply mapM_ext. intros l. apply readCourse_insert_CArr, Hobj.
    + rewrite readCourses_insert_CArr by assumption.
      unfold readCourses. apply readSlots_Some in E. rewrite E. exact Hcat.
Qed.

(** Both outcomes on the freshly loaded module, for the samples 1/20 and
    1/2. *)
Lemma getCourses_outcome_witness :
  readCourses moduleStore COURSES_DATA = Some catalog
  /\ (1 # 20 < FAILURE_RATE)%Q
  /\ ~ (1 # 2 < FAILURE_RATE)%Q
  /\ getCourses (1 # 20) moduleStore
     = (Rejected (mkError "Network error: Unable to fetch courses"), moduleStore)
  /\ exists r σ',
       getCourses (1 # 2) moduleStore = (Resolved r, σ')
       /\ moduleStore !! r = None
       /\ readCourses σ' r = Some catalog
       /\ length catalog = 4%nat
       /\ readCourses σ' COURSES_DATA = Some catalog.
Proof.
  assert (Hcat : readCourses moduleStore COURSES_DATA = Some catalog)
    by (vm_compute; reflexivity).
  assert (Hlo : (1 # 20 < FAILURE_RATE)%Q) by reflexivity.
  assert (Hhi : ~ (1 # 2 < FAILURE_RATE)%Q) by (intros H; discriminate H).
  split; [exact Hcat|]. split; [exact Hlo|]. split; [exact Hhi|]. split.
  - exact (proj1 (getCourses_outcome (1 # 20) moduleStore Hcat) Hlo).
  - exact (proj2 (getCourses_outcome (1 # 2) moduleStore Hcat) Hhi).
Defined.

(** The catalog is shown unchanged when the module is loaded and after
    any number of calls, failed or not. *)
Lemma getCourses_keeps_catalog (samples : list Q) :
  readCourses
    (fold_left (fun σ sample => snd (getCourses sample σ)) samples moduleStore)
    COURSES_DATA
  = Some catalog.
Proof.
  assert (Hinit : readCourses moduleStore COURSES_DATA = Some catalog)
    by (vm_compute; reflexivity).
  revert Hinit. generalize moduleStore as σ.
  induction samples as [|sample samples IH]; intros σ Hσ; simpl; [exact Hσ|].
  apply IH. rewrite getCourses_frame_catalog. exact Hσ.
Qed.

(** [find] returns the first slot whose object has the identifier. *)
Lemma find_spec (σ : store) (wanted : Z) (elems : list loc) (cs : list Course) :
  mapM (readCourse σ) elems = Some cs ->
  match find σ wanted elems with
  | Some l => exists c, readCourse σ l = Some c /\ id c = wanted
                        /\ In c cs /\ In l elems
  | None => forall c, In c cs -> id c <> wanted
  end.
Proof.
  intros H. apply mapM_Some in H.
  induction H as [|l c elems cs Hl _ IH]; simpl.
  - intros c [].
  - rewrite Hl. destruct (Z.eqb_spec (id c) wanted) as [E|E].
    + exists c. auto.
    + destruct (find σ wanted elems) as [l'|].
      * destruct IH as (c' & ? & ? & ? & ?). exists c'. auto.
      * intros c' [<-|Hin]; auto.
Qed.

Lemma find_In (σ : store) (wanted : Z) (elems : list loc) (l : loc) :
  find σ wanted elems = Some l -> In l elems.
Proof.
  induction elems as [|x elems IH]; simpl; [discriminate|].
  destruct (readCourse σ x) as [c|].
  - destruct (id c =? wanted).
    + intros [= ->]. left. reflexivity.
    + intros Hf. right. apply IH, Hf.
  - intros Hf. right. apply IH, Hf.
Qed.

Lemma find_Some (σ : store) (wanted : Z) (elems : list loc) (l : loc) :
  find σ wanted elems = Some l ->
  exists c, readCourse σ l = Some c /\ id c = wanted.
Proof.
  induction elems as [|x elems IH]; simpl; [discriminate|].
  destruct (readCourse σ x) as [c|] eqn:E; [|exact IH].
  destruct (Z.eqb_spec (id c) wanted) as [Hid|_]; [|exact IH].
  intros [= <-]. eauto.
Qed.

(** [course.name = s] on a course object, and what is read afterwards. *)
Lemma setName_read (σ : store) (l : loc) (c : Course) (s : string) :
  readCourse σ l = Some c ->
  readCourse (setName l s σ) l = Some (mkCourse (id c) s)
  /\ forall a, readSlots (setName l s σ) a = readSlots σ a.
Proof.
  unfold readCourse, setName, readSlots.
  destruct (σ !! l) as [[c'|e]|] eqn:E; try discriminate. intros [= ->].
  split; [rewrite lookup_insert_eq; reflexivity|].
  intros a. destruct (decide (l = a)) as [<-|Hne].
  - rewrite lookup_insert_eq, E. reflexivity.
  - rewrite lookup_insert_ne by exact Hne. reflexivity.
Qed.

(** C8: [getCourseById] never rejects.  It resolves with a slot of
    [COURSES_DATA] whose course has the wanted identifier, and with
    [null] exactly when no course of the catalog has it. *)
Theorem getCourseById_total (σ : store) (cs : list Course) (wanted : Z) :
  readCourses σ COURSES_DATA = Some cs ->
  exists res,
    getCourseById wanted σ = Resolved res
    /\ match res with
       | Some l =>
           exists c elems,
             readCourse σ l = Some c /\ id c = wanted /\ In c cs
             /\ readSlots σ COURSES_DATA = Some elems /\ In l elems
       | None => forall c, In c cs -> id c <> wanted
       end.
Proof.
  unfold readCourses, getCourseById.
  destruct (readSlots σ COURSES_DATA) as [elems|]; [|discriminate].
  intros H. exists (find σ wanted elems). split; [reflexivity|].
  pose proof (find_spec σ wanted elems cs H) as Hf.
  destruct (find σ wanted elems) as [l|]; [|exact Hf].
  destruct Hf as (c & ? & ? & ? & ?). exists c, elems. auto.
Qed.

(** On the freshly loaded module: the identifier 3 is found, 7 is not. *)
Lemma getCourseById_total_witness :
  readCourses moduleStore COURSES_DATA = Some catalog
  /\ (exists res,
        getCourseById 3 moduleStore = Resolved res
        /\ match res with
           | Some l =>
               exists c elems,
                 readCourse moduleStore l = Some c /\ id c = 3 /\ In c catalog
                 /\ readSlots moduleStore COURSES_DATA = Some elems /\ In l elems
           | None => forall c, In c catalog -> id c <> 3
           end)
  /\ getCourseById 3 moduleStore = Resolved (Some 3%positive)
  /\ readCourse moduleStore 3%positive = Some (mkCourse 3 "JavaScript Pro")
  /\ getCourseById 7 moduleStore = Resolved None.
Proof.
  assert (Hcat : readCourses moduleStore COURSES_DATA = Some catalog)
    by (vm_compute; reflexivity).
  split; [exact Hcat|].
  split; [exact (getCourseById_total moduleStore catalog 3 Hcat)|].
  repeat split; vm_compute; reflexivity.
Defined.

Lemma setSlots_array (σ : store) (a : loc) (old elems : list loc) :
  σ !! a = Some (CArr old) -> setSlots a elems σ = <[a := CArr elems]> σ.
Proof. intros H. unfold setSlots. rewrite H. reflexivity. Qed.

(** Rewriting the slots of one array is invisible through any other
    array. *)
Lemma setSlots_frame (σ : store) (a b : loc) (elems : list loc) :
  a <> b ->
  readSlots (setSlots a elems σ) b = readSlots σ b
  /\ readCourses (setSlots a elems σ) b = readCourses σ b.
Proof.
  intros Hne. unfold setSlots.
  destruct (σ !! a) as [[c|old]|] eqn:E; try (split; reflexivity).
  split; [apply readSlots_insert_ne; exact Hne|].
  apply readCourses_insert_CArr; [|exact Hne]. intros c. congruence.
Qed.

(** C7, as stated, fails: the arrays are copies but the courses in them
    are not.  A call of [getCourses] on the freshly loaded module gives
    the array at location 6, whose first slot is the catalog's own first
    object; so is the result of [getCourseById(1)].  Renaming that
    object through either reference shows in the catalog and in the
    array of a later call. *)
Lemma getCourses_shares_course_objects :
  fst (getCourses (1 # 2) moduleStore) = Resolved 6%positive
  /\ fst (getCourses (1 # 2) (snd (getCourses (1 # 2) moduleStore))) = Resolved 7%positive
  /\ readSlots Scenario.afterTwoFetches 6%positive = Some [1; 2; 3; 4]%positive
  /\ getCourseById 1 Scenario.afterTwoFetches = Resolved (Some 1%positive)
  /\ readCourses Scenario.afterTwoFetches COURSES_DATA = Some catalog
  /\ readCourses Scenario.afterRenaming COURSES_DATA
     = Some (mkCourse 1 "Renamed" :: tail catalog)
  /\ readCourses Scenario.afterRenaming 7%positive
     = Some (mkCourse 1 "Renamed" :: tail catalog)
  /\ readCourses Scenario.afterRenaming COURSES_DATA
     <> readCourses Scenario.afterTwoFetches COURSES_DATA.
Proof. vm_compute. repeat split; try reflexivity. discriminate. Qed.

(** C7 (amended): two successive successful calls of [getCourses] return
    two distinct, newly allocated arrays, distinct from [COURSES_DATA],
    that show the same courses as each other and as the catalog.
    Rewriting the slots of either array changes neither the other array
    nor the catalog.  [getCourseById] returns a slot of [COURSES_DATA]
    itself, that is the catalog's own course object: a name given to it
    is the name that the catalog's slot has from then on. *)
Theorem getCourses_copy_isolation
    (s1 s2 : Q) (σ σ1 σ2 : store) (r1 r2 : loc) :
  getCourses s1 σ = (Resolved r1, σ1) ->
  getCourses s2 σ1 = (Resolved r2, σ2) ->
  (r1 <> r2 /\ r1 <> COURSES_DATA /\ r2 <> COURSES_DATA
   /\ σ !! r1 = None /\ σ1 !! r2 = None)
  /\ (readCourses σ2 r1 = readCourses σ2 r2
      /\ readCourses σ2 r1 = readCourses σ COURSES_DATA
      /\ readCourses σ2 COURSES_DATA = readCourses σ COURSES_DATA)
  /\ (forall elems : list loc,
        readSlots (setSlots r1 elems σ2) r1 = Some elems
        /\ readSlots (setSlots r1 elems σ2) r2 = readSlots σ2 r2
        /\ readCourses (setSlots r1 elems σ2) r2 = readCourses σ2 r2
        /\ readSlots (setSlots r1 elems σ2) COURSES_DATA = readSlots σ2 COURSES_DATA
        /\ readCourses (setSlots r1 elems σ2) COURSES_DATA = readCourses σ2 COURSES_DATA)
  /\ (forall elems : list loc,
        readSlots (setSlots r2 elems σ2) r2 = Some elems
        /\ readSlots (setSlots r2 elems σ2) r1 = readSlots σ2 r1
        /\ readCourses (setSlots r2 elems σ2) r1 = readCourses σ2 r1
        /\ readSlots (setSlots r2 elems σ2) COURSES_DATA = readSlots σ2 COURSES_DATA
        /\ readCourses (setSlots r2 elems σ2) COURSES_DATA = readCourses σ2 COURSES_DATA)
  /\ (forall (wanted : Z) (l : loc),
        getCourseById wanted σ2 = Resolved (Some l) ->
        exists slots,
          readSlots σ2 COURSES_DATA = Some slots /\ In l slots
          /\ forall s : string,
               readSlots (setName l s σ2) COURSES_DATA = Some slots
               /\ readCourse (setName l s σ2) l = Some (mkCourse wanted s)).
Proof.
  intros H1 H2.
  apply getCourses_Resolved_inv in H1 as (e1 & Hc & Hr1 & ->).
  apply getCourses_Resolved_inv in H2 as (e2 & Hc1 & Hr2 & ->).
  assert (N1 : r1 <> COURSES_DATA) by congruence.
  rewrite lookup_insert_ne in Hc1 by exact N1.
  assert (e2 = e1) as -> by congruence.
  assert (N12 : r1 <> r2).
  { intros ->. rewrite lookup_insert_eq in Hr2. discriminate. }
  assert (N2 : r2 <> COURSES_DATA).
  { intros ->. rewrite lookup_insert_ne in Hr2 by exact N1. congruence. }
  set (σ1 := <[r1 := CArr e1]> σ) in *.
  set (σ2 := <[r2 := CArr e1]> σ1).
  assert (S1 : σ2 !! r1 = Some (CArr e1)).
  { subst σ2 σ1. rewrite lookup_insert_ne by congruence. apply lookup_insert_eq. }
  assert (S2 : σ2 !! r2 = Some (CArr e1)) by apply lookup_insert_eq.
  assert (SC : σ2 !! COURSES_DATA = Some (CArr e1)).
  { subst σ2 σ1. rewrite !lookup_insert_ne by congruence. exact Hc. }
  assert (RC : forall l, readCourse σ2 l = readCourse σ l).
  { intros l. subst σ2 σ1.
    rewrite readCourse_insert_CArr by (intros c; congruence).
    apply readCourse_insert_CArr. intros c; congruence. }
  pose proof S1 as S1'. pose proof S2 as S2'. pose proof SC as SC'. pose proof Hc as Hc'.
  apply readSlots_Some in S1', S2', SC', Hc'.
  split; [auto|]. split.
  { unfold readCourses. rewrite S1', S2', SC', Hc'.
    split; [reflexivity|]. split; apply mapM_ext, RC. }
  split.
  { intros elems. rewrite (setSlots_array σ2 r1 e1 elems S1).
    split; [apply readSlots_Some, lookup_insert_eq|].
    rewrite <- (setSlots_array σ2 r1 e1 elems S1).
    destruct (setSlots_frame σ2 r1 r2 elems N12).
    destruct (setSlots_frame σ2 r1 COURSES_DATA elems N1). auto. }
  split.
  { intros elems. rewrite (setSlots_array σ2 r2 e1 elems S2).
    split; [apply readSlots_Some, lookup_insert_eq|].
    rewrite <- (setSlots_array σ2 r2 e1 elems S2).
    destruct (setSlots_frame σ2 r2 r1 elems (not_eq_sym N12)).
    destruct (setSlots_frame σ2 r2 COURSES_DATA elems N2). auto. }
  intros wanted l. unfold getCourseById. rewrite SC'. intros [= Hf].
  exists e1. split; [reflexivity|]. split; [apply (find_In σ2 wanted), Hf|].
  destruct (find_Some σ2 wanted e1 l Hf) as (c & Hread & <-).
  intros s. destruct (setName_read σ2 l c s Hread) as [Hl Hslots].
  rewrite Hslots. auto.
Qed.

(** Two successive calls on the freshly loaded module, and the first
    result emptied afterwards. *)
Lemma getCourses_copy_isolation_witness :
  exists r1 r2 σ1 σ2,
    getCourses (1 # 2) moduleStore = (Resolved r1, σ1)
    /\ getCourses (3 # 4) σ1 = (Resolved r2, σ2)
    /\ r1 <> r2
    /\ readCourses σ2 r1 = readCourses σ2 r2
    /\ readCourses (setSlots r1 [] σ2) r2 = readCourses σ2 r2
    /\ readCourses (setSlots r1 [] σ2) COURSES_DATA = readCourses σ2 COURSES_DATA.
Proof.
  set (c1 := getCourses (1 # 2) moduleStore).
  set (c2 := getCourses (3 # 4) (snd c1)).
  assert (H1 : c1 = (Resolved 6%positive, snd c1)) by (vm_compute; reflexivity).
  assert (H2 : c2 = (Resolved 7%positive, snd c2)) by (vm_compute; reflexivity).
  exists 6%positive, 7%positive, (snd c1), (snd c2).
  pose proof (getCourses_copy_isolation (1 # 2) (3 # 4) moduleStore (snd c1) (snd c2)
                6%positive 7%positive H1 H2) as (Hd & He & Hm & _).
  split; [exact H1|]. split; [exact H2|].
  split; [exact (proj1 Hd)|].
  split; [exact (proj1 He)|].
  destruct (Hm []) as (_ & _ & Hx & _ & Hy). auto.
Defined.

End MockApiFacts.

(** ** The dashboard controller *)

Section ControllerFacts.
Import JS Dashboard.

Lemma render_Loading (s : State) : render s = Loading <-> loading s = true.
Proof.
  unfold render. destruct (loading s); [tauto|].
  destruct (error s) as [msg|]; [destruct (truthy msg)|]; split; discriminate.
Qed.

Lemma render_ErrorView (s : State) (msg : string) :
  render s = ErrorView msg <->
  loading s = false /\ error s = Some msg /\ msg <> EmptyString.
Proof.
  unfold render, truthy. destruct (loading s).
  { split; [discriminate | intros [? _]; discriminate]. }
  destruct (error s) as [m|].
  - destruct (String.eqb_spec m EmptyString) as [->|Hm]; simpl.
    + split; [discriminate | intros (_ & [= <-] & H); congruence].
    + split; [intros [= ->]; auto | intros (_ & [= <-] & _); reflexivity].
  - split; [discriminate | intros (_ & ? & _); discriminate].
Qed.

Lemma render_Ready (s : State) (cs : list Course) :
  render s = Ready cs <->
  loading s = false /\ (error s = None \/ error s = Some EmptyString)
  /\ cs = courses s.
Proof.
  unfold render, truthy. destruct (loading s).
  { split; [discriminate | intros [? _]; discriminate]. }
  destruct (error s) as [m|].
  - destruct (String.eqb_spec m EmptyString) as [->|Hm]; simpl.
    + split; [intros [= <-]; auto | intros (_ & _ & ->); reflexivity].
    + split; [discriminate | intros (_ & [?|?] & _); congruence].
  - split; [intros [= <-]; auto | intros (_ & _ & ->); reflexivity].
Qed.

(** C2: a state of the controller shows exactly one of the three views;
    [loadCourses] shows [Loading], with the error cleared, as soon as
    it is called and until the fetch has settled, every setter in
    between included, and its last setter leaves [Ready] with the
    courses fetched or [ErrorView], never [Loading]. *)
Theorem loadCourses_state_machine (s : State) (o : settled (list Course)) :
  (forall s' : State,
      (render s' = Loading
       /\ (forall m, render s' <> ErrorView m) /\ (forall cs, render s' <> Ready cs))
      \/ ((exists m, render s' = ErrorView m)
          /\ render s' <> Loading /\ (forall cs, render s' <> Ready cs))
      \/ ((exists cs, render s' = Ready cs)
          /\ render s' <> Loading /\ (forall m, render s' <> ErrorView m)))
  /\ Forall (fun s' => render s' = Loading) (trace loadCoursesBegin s)
  /\ render (run loadCoursesBegin s) = Loading
  /\ error (run loadCoursesBegin s) = None
  /\ (exists before,
        trace (loadCoursesSettle o) (run loadCoursesBegin s)
        = before ++ [loadCoursesWith o s]
        /\ Forall (fun s' => render s' = Loading) before)
  /\ render (loadCoursesWith o s) <> Loading
  /\ match o with
     | Resolved coursesData =>
         render (loadCoursesWith o s) = Ready coursesData
     | Rejected _ =>
         exists m, render (loadCoursesWith o s) = ErrorView m
     end.
Proof.
  split.
  { intros s'. destruct (render s') as [|m|cs] eqn:E.
    - left. repeat split; discriminate.
    - right; left. split; [eauto|]. split; discriminate.
    - right; right. split; [eauto|]. split; discriminate. }
  split; [repeat constructor|].
  split; [reflexivity|]. split; [reflexivity|].
  destruct o as [cs|e].
  - split; [exists [applyUpdate (run loadCoursesBegin s) (setCourses cs)]; split;
            [reflexivity | repeat constructor]|].
    split; [discriminate | reflexivity].
  - split; [exists [applyUpdate (run loadCoursesBegin s) (setError (Some LOAD_FAILED))]; split;
            [reflexivity | repeat constructor]|].
    split; [discriminate | exists LOAD_FAILED; reflexivity].
Qed.

(** C3, as stated, fails: the message of the error thrown by
    [getCourses] is not the one displayed. *)
Lemma loadCourses_drops_failure_message :
  fst (awaitFetchCourses (1 # 20) moduleStore)
  = Rejected (mkError "Network error: Unable to fetch courses")
  /\ render (fst (loadCourses (1 # 20) moduleStore initialState))
     = ErrorView "Failed to load courses. Please try again."
  /\ render (fst (loadCourses (1 # 20) moduleStore initialState))
     <> ErrorView "Network error: Unable to fetch courses".
Proof. vm_compute. repeat split; try reflexivity. discriminate. Qed.

Lemma awaitFetchCourses_failing (sample : Q) (σ : store) :
  (sample < FAILURE_RATE)%Q ->
  awaitFetchCourses sample σ = (Rejected NETWORK_ERROR, σ).
Proof.
  intros H. apply sampleFails_true in H.
  unfold awaitFetchCourses, fetchCourses, getCourses. rewrite H. reflexivity.
Qed.

(** C3 (amended): when the fetch rejects, whatever the error, the
    controller shows [ErrorView] with the fixed text ["Failed to load
    courses. Please try again."]; the message of the error, which for
    [getCourses] is ["Network error: Unable to fetch courses"], is not
    kept in the state. *)
Theorem loadCourses_failure_message (s : State) (e : Error) :
  error (loadCoursesWith (Rejected e) s) = Some "Failed to load courses. Please try again."
  /\ render (loadCoursesWith (Rejected e) s)
     = ErrorView "Failed to load courses. Please try again."
  /\ (forall e' : Error,
        loadCoursesWith (Rejected e') s = loadCoursesWith (Rejected e) s)
  /\ (forall (sample : Q) (σ : store),
        (sample < FAILURE_RATE)%Q ->
        fst (awaitFetchCourses sample σ)
        = Rejected (mkError "Network error: Unable to fetch courses")
        /\ render (fst (loadCourses sample σ s))
           = ErrorView "Failed to load courses. Please try again.").
Proof.
  split; [reflexivity|]. split; [reflexivity|]. split; [reflexivity|].
  intros sample σ H. unfold loadCourses.
  rewrite (awaitFetchCourses_failing sample σ H). split; reflexivity.
Qed.

(** A first load whose sample is 1/20. *)
Lemma loadCourses_failure_message_witness :
  (1 # 20 < FAILURE_RATE)%Q
  /\ fst (awaitFetchCourses (1 # 20) moduleStore)
     = Rejected (mkError "Network error: Unable to fetch courses")
  /\ render (fst (loadCourses (1 # 20) moduleStore initialState))
     = ErrorView "Failed to load courses. Please try again.".
Proof.
  assert (Hlo : (1 # 20 < FAILURE_RATE)%Q) by reflexivity.
  split; [exact Hlo|].
  exact (proj2 (proj2 (proj2 (loadCourses_failure_message initialState NETWORK_ERROR)))
           (1 # 20) moduleStore Hlo).
Defined.

(** C4, as stated, fails: a load that succeeds and a reload that fails
    leave the four courses of the first load in the [courses] cell. *)
Lemma loadCourses_failure_keeps_courses :
  render (fst Scenario.firstLoad) = Ready catalog
  /\ courses (fst Scenario.firstLoad) = catalog
  /\ fst (awaitFetchCourses (1 # 20) (snd Scenario.firstLoad))
     = Rejected (mkError "Network error: Unable to fetch courses")
  /\ courses (fst Scenario.failedReload) = catalog
  /\ courses (fst Scenario.failedReload) <> [].
Proof. vm_compute. repeat split; try reflexivity. discriminate. Qed.

(** C4 (amended): when the fetch rejects, the [courses] cell keeps the
    value it had before the call; the view is [ErrorView], which shows
    no course. *)
Theorem loadCourses_failure_courses (s : State) (e : Error) :
  courses (loadCoursesWith (Rejected e) s) = courses s
  /\ render (loadCoursesWith (Rejected e) s)
     = ErrorView "Failed to load courses. Please try again."
  /\ (forall (sample : Q) (σ : store),
        (sample < FAILURE_RATE)%Q ->
        courses (fst (loadCourses sample σ s)) = courses s).
Proof.
  split; [reflexivity|]. split; [reflexivity|].
  intros sample σ H. unfold loadCourses.
  rewrite (awaitFetchCourses_failing sample σ H). reflexivity.
Qed.

(** A reload whose sample is 1/20, after a load that succeeded. *)
Lemma loadCourses_failure_courses_witness :
  (1 # 20 < FAILURE_RATE)%Q
  /\ courses (fst Scenario.firstLoad) = catalog
  /\ courses (fst (loadCourses (1 # 20) (snd Scenario.firstLoad) (fst Scenario.firstLoad)))
     = courses (fst Scenario.firstLoad).
Proof.
  assert (Hlo : (1 # 20 < FAILURE_RATE)%Q) by reflexivity.
  split; [exact Hlo|]. split; [vm_compute; reflexivity|].
  exact (proj2 (proj2 (loadCourses_failure_courses (fst Scenario.firstLoad) NETWORK_ERROR))
           (1 # 20) (snd Scenario.firstLoad) Hlo).
Defined.

End ControllerFacts.

(** ** The derived values of the dashboard *)

Section DerivedFacts.
Import JS Spec Dashboard.

Lemma selects_filter {A : Type} (P : A -> Prop) (f : A -> bool) (l : list A) :
  (forall x, f x = true <-> P x) -> selects P l (List.filter f l).
Proof.
  intros Hf. induction l as [|x l IH]; simpl; [constructor|].
  destruct (f x) eqn:E.
  - apply selects_keep; [apply Hf; exact E | exact IH].
  - apply selects_drop; [rewrite <- Hf, E; discriminate | exact IH].
Qed.

(** [selects P l] holds of one list only. *)
Lemma selects_functional {A : Type} (P : A -> Prop) (l l1 l2 : list A) :
  selects P l l1 -> selects P l l2 -> l1 = l2.
Proof.
  intros H1. revert l2.
  induction H1 as [|x l l1 Hx _ IH|x l l1 Hx _ IH]; intros l2 H2; inversion H2; subst;
    try reflexivity; try contradiction.
  - f_equal. auto.
  - auto.
Qed.

Lemma sublist_filter {A : Type} (f : A -> bool) (l : list A) :
  sublist (List.filter f l) l.
Proof.
  induction l as [|x l IH]; simpl; [constructor|].
  destruct (f x); [apply sublist_skip | apply sublist_cons]; exact IH.
Qed.

Lemma matchesSearch_spec (searchTerm : string) (student : Student) :
  matchesSearch searchTerm student = true <->
  containsIgnoringCase (Dashboard.name student) searchTerm
  \/ containsIgnoringCase (email student) searchTerm.
Proof.
  unfold matchesSearch, containsIgnoringCase.
  rewrite orb_true_iff, !includes_spec. reflexivity.
Qed.

Lemma matchesCourse_spec (sel : selection) (student : Student) :
  matchesCourse (optionValue sel) student = true <->
  sel = allCourses \/ sel = oneCourse (courseId student).
Proof.
  unfold matchesCourse. destruct sel as [|k]; simpl.
  - split; auto.
  - destruct (String.eqb_spec (Number_toString k) "all") as [E|_].
    { destruct (toString_not_all k E). }
    simpl. rewrite String.eqb_eq. split.
    + intros E. right. f_equal. symmetry. apply toString_inj, E.
    + intros [E|E]; [discriminate | injection E as ->; reflexivity].
Qed.

(** C6: [filteredStudents] is the subsequence of the students whose
    name or email contains the search term, the case of letters
    ignored, and whose course is the one selected unless all courses
    are selected; it keeps their order.  On the two students of the
    scenario, the term ["pat"] keeps both under ["all"] and the first
    one only under ["1"]. *)
Theorem filteredStudents_spec
    (students : list Student) (searchTerm : string) (sel : selection) :
  selects
    (fun student =>
       (containsIgnoringCase (Dashboard.name student) searchTerm
        \/ containsIgnoringCase (email student) searchTerm)
       /\ (sel = allCourses \/ sel = oneCourse (courseId student)))
    students
    (filteredStudents students searchTerm (optionValue sel))
  /\ sublist (filteredStudents students searchTerm (optionValue sel)) students
  /\ forall (id1 id2 : string) (image1 image2 : option string) (t1 t2 : Z),
      let rajesh := mkStudent id1 "Rajesh Patil" "rajesh.patil@gmail.com" 1 image1 t1 in
      let om := mkStudent id2 "Om Patel" "om.patel@gmail.com" 2 image2 t2 in
      filteredStudents [rajesh; om] "pat" "all" = [rajesh; om]
      /\ filteredStudents [rajesh; om] "pat" "1" = [rajesh].
Proof.
  split; [|split].
  - apply selects_filter. intros student.
    rewrite andb_true_iff, matchesSearch_spec, matchesCourse_spec. reflexivity.
  - apply sublist_filter.
  - intros. split; reflexivity.
Qed.

Lemma Math_round_nearest (n : Z) (p : positive) :
  nearestInteger n (Z.pos p) (Math_round (inject_Z n / inject_Z (Z.pos p))).
Proof.
  unfold nearestInteger, Math_round.
  set (x := (inject_Z n / inject_Z (Z.pos p) + (1 # 2))%Q).
  pose proof (Qfloor_le x) as Hlo. pose proof (Qlt_floor x) as Hhi.
  set (k := Qfloor x) in *.
  unfold x, Qle, Qlt, Qdiv, Qinv, Qmult, Qplus, inject_Z in Hlo, Hhi.
  simpl in Hlo, Hhi. nia.
Qed.

Lemma isRecent_spec (now : Z) (student : Student) :
  isRecent now student = true <-> now - 30 * 86400000 < createdAt student.
Proof. unfold isRecent, THIRTY_DAYS. rewrite Z.ltb_lt. lia. Qed.

Lemma isRecent_inTrailingWindow (now : Z) (student : Student) :
  createdAt student <= now ->
  isRecent now student = inTrailingWindow now (createdAt student).
Proof.
  intros H. unfold isRecent, inTrailingWindow, THIRTY_DAYS.
  apply Z.leb_le in H. rewrite H, andb_true_r.
  apply eq_true_iff_eq. rewrite !Z.ltb_lt. lia.
Qed.

(** C5, as stated, fails on the window: on the students that the page
    starts with, on the first of March 2025, the student enrolled on the
    tenth of March, nine days later, is counted as a recent enrolment;
    the trailing window holds only the student of the twentieth of
    February. *)
Lemma dashboardStats_counts_future_enrollment :
  recentEnrollments (dashboardStats initialStudents [] 1740787200000) = 2
  /\ List.filter (fun student => inTrailingWindow 1740787200000 (createdAt student))
       initialStudents
     = [mkStudent "2" "Om Patel" "om.patel@gmail.com" 2
          (Some "/professional-man.png") 1740009600000].
Proof. split; reflexivity. Qed.

(** C5 (amended): [dashboardStats] gives the number of students, the
    number of courses, the number of students whose [createdAt] is
    later than thirty days before the current time, be it later than
    the current time itself, and the integer nearest to students per
    course, the upper one on a tie, or 0 when there is no course.  When
    no [createdAt] is later than the current time the third number is
    the count within the trailing 30-day window.  The scenario of three
    students enrolled 10, 40 and 5 days ago and two courses gives 3, 2,
    2 and 2. *)
Theorem dashboardStats_spec
    (students : list Student) (courses : list Course) (now : Z) :
  totalStudents (dashboardStats students courses now) = Z.of_nat (length students)
  /\ totalCourses (dashboardStats students courses now) = Z.of_nat (length courses)
  /\ (exists recent,
        selects (fun student => now - 30 * 86400000 < createdAt student) students recent
        /\ recentEnrollments (dashboardStats students courses now)
           = Z.of_nat (length recent))
  /\ (Forall (fun student => createdAt student <= now) students ->
      recentEnrollments (dashboardStats students courses now)
      = Z.of_nat (length (List.filter
                            (fun student => inTrailingWindow now (createdAt student))
                            students)))
  /\ (courses = [] -> averagePerCourse (dashboardStats students courses now) = 0)
  /\ (courses <> [] ->
      nearestInteger (Z.of_nat (length students)) (Z.of_nat (length courses))
        (averagePerCourse (dashboardStats students courses now)))
  /\ forall (id1 id2 id3 name1 name2 name3 email1 email2 email3 : string)
       (image1 image2 image3 : option string) (course1 course2 : string),
      dashboardStats
        [ mkStudent id1 name1 email1 1 image1 (now - 10 * 86400000);
          mkStudent id2 name2 email2 1 image2 (now - 40 * 86400000);
          mkStudent id3 name3 email3 2 image3 (now - 5 * 86400000) ]
        [ mkCourse 1 course1; mkCourse 2 course2 ]
        now
      = {| totalStudents := 3; totalCourses := 2;
           recentEnrollments := 2; averagePerCourse := 2 |}.
Proof.
  split; [reflexivity|]. split; [reflexivity|]. split.
  { exists (List.filter (isRecent now) students). split; [|reflexivity].
    apply selects_filter. intros student. apply isRecent_spec. }
  split.
  { intros Hpast. cbn [dashboardStats recentEnrollments]. do 2 f_equal.
    induction Hpast as [|student rest Hle _ IH]; [reflexivity|].
    simpl. rewrite (isRecent_inTrailingWindow now student Hle), IH. reflexivity. }
  split.
  { intros ->. reflexivity. }
  split.
  { intros Hne. cbn [dashboardStats averagePerCourse].
    destruct courses as [|c rest]; [congruence|].
    change (0 <? Z.of_nat (length (c :: rest))) with true. cbn iota.
    change (Z.of_nat (length (c :: rest))) with (Z.pos (Pos.of_succ_nat (length rest))).
    apply Math_round_nearest. }
  intros. unfold dashboardStats, isRecent. cbn [List.filter createdAt].
  replace (now - (now - 10 * 86400000)) with 864000000 by lia.
  replace (now - (now - 40 * 86400000)) with 3456000000 by lia.
  replace (now - (now - 5 * 86400000)) with 432000000 by lia.
  reflexivity.
Qed.

(** The page's initial students and the catalog, on the first of April
    2025, when no enrolment date is ahead of the clock. *)
Lemma dashboardStats_spec_witness :
  Forall (fun student => createdAt student <= 1743465600000) initialStudents
  /\ catalog <> []
  /\ recentEnrollments (dashboardStats initialStudents catalog 1743465600000)
     = Z.of_nat (length (List.filter
                           (fun student => inTrailingWindow 1743465600000 (createdAt student))
                           initialStudents))
  /\ nearestInteger 3 4 (averagePerCourse (dashboardStats initialStudents catalog 1743465600000))
  /\ averagePerCourse (dashboardStats initialStudents [] 1743465600000) = 0.
Proof.
  assert (Hpast : Forall (fun student => createdAt student <= 1743465600000) initialStudents).
  { repeat constructor; discriminate. }
  assert (Hne : catalog <> []) by discriminate.
  destruct (dashboardStats_spec initialStudents catalog 1743465600000)
    as (_ & _ & _ & Hwindow & _ & Hround & _).
  destruct (dashboardStats_spec initialStudents [] 1743465600000)
    as (_ & _ & _ & _ & Hzero & _).
  split; [exact Hpast|]. split; [exact Hne|].
  split; [exact (Hwindow Hpast)|]. split; [exact (Hround Hne)|].
  exact (Hzero eq_refl).
Defined.

End DerivedFacts.

(** ** The student form: [handleSubmit] *)

Section HandleSubmit.
Import JS Spec StudentForm.

Lemma trimStart_spec (s : string) :
  exists pre, s = pre +:+ trimStart s
              /\ allChars isWhiteSpace pre = true
              /\ startsWithSpace (trimStart s) = false.
Proof.
  induction s as [|c s (pre & E & Hpre & Hs)].
  - exists EmptyString. auto.
  - simpl. destruct (isWhiteSpace c) eqn:Hc.
    + exists (String c pre). simpl. rewrite Hc, Hpre. auto using f_equal.
    + exists EmptyString. simpl. auto.
Qed.

Lemma trimEnd_spec (s : string) :
  exists suf, s = trimEnd s +:+ suf
              /\ allChars isWhiteSpace suf = true
              /\ endsWithSpace (trimEnd s) = false.
Proof.
  induction s as [|c s (suf & E & Hsuf & Hs)].
  - exists EmptyString. auto.
  - simpl. destruct (trimEnd s) as [|d t] eqn:Ht.
    + destruct (isWhiteSpace c) eqn:Hc.
      * exists (String c suf). simpl in *. rewrite Hc, Hsuf. auto using f_equal.
      * exists suf. simpl in *. auto using f_equal.
    + exists suf. simpl in *. auto using f_equal.
Qed.

Lemma trimEnd_startsWithSpace (s : string) :
  startsWithSpace s = false -> startsWithSpace (trimEnd s) = false.
Proof.
  destruct s as [|c s]; simpl; [auto|]. intros Hc.
  destruct (trimEnd s); [rewrite Hc|]; auto.
Qed.

Lemma trim_spec (s : string) : isTrimOf (trim s) s.
Proof.
  unfold trim, isTrimOf.
  destruct (trimStart_spec s) as (pre & E & Hpre & Hstart).
  destruct (trimEnd_spec (trimStart s)) as (suf & E' & Hsuf & Hend).
  exists pre, suf. rewrite <- E', <- E.
  repeat split; auto using trimEnd_startsWithSpace.
Qed.

Lemma lowerChar_not_upper (c : ascii) : isUpper (lowerChar c) = false.
Proof. destruct c as [[] [] [] [] [] [] [] []]; reflexivity. Qed.

Lemma toLowerCase_isLowerCase (s : string) : isLowerCase (toLowerCase s).
Proof.
  unfold isLowerCase. induction s as [|c s IH]; simpl; [reflexivity|].
  rewrite lowerChar_not_upper, IH. reflexivity.
Qed.

Lemma placeholder_nonempty (enteredName : string) : placeholder enteredName <> EmptyString.
Proof. discriminate. Qed.

Lemma truthy_true (s : string) : truthy s = true <-> s <> EmptyString.
Proof.
  unfold truthy. destruct (String.eqb_spec s EmptyString); simpl; split; congruence.
Qed.

Lemma profileImageOrPlaceholder_Some (formData : FormData) (image : string) :
  profileImageOrPlaceholder formData = Some image ->
  image <> EmptyString
  /\ (profileImage formData <> EmptyString -> image = profileImage formData)
  /\ (profileImage formData = EmptyString ->
      image = "/placeholder.svg?height=40&width=40&query="
              +:+ encodeURIComponent (name formData +:+ " professional photo")).
Proof.
  unfold profileImageOrPlaceholder.
  destruct (truthy (profileImage formData)) eqn:T.
  - intros [= <-]. apply truthy_true in T. repeat split; congruence.
  - destruct (throwsURIError _); [discriminate|]. intros [= <-].
    assert (profileImage formData = EmptyString) as E.
    { destruct (String.eqb_spec (profileImage formData) EmptyString) as [E|E]; [exact E|].
      apply truthy_true in E. congruence. }
    repeat split; try congruence. apply placeholder_nonempty.
Qed.

Lemma profileImageOrPlaceholder_None (formData : FormData) :
  profileImageOrPlaceholder formData = None <->
  profileImage formData = EmptyString
  /\ throwsURIError (name formData +:+ " professional photo") = true.
Proof.
  unfold profileImageOrPlaceholder.
  destruct (String.eqb_spec (profileImage formData) EmptyString) as [E|E].
  - rewrite E. cbn [truthy String.eqb negb].
    destruct (throwsURIError _); split; try discriminate; auto. intros [_ H]; discriminate H.
  - apply truthy_true in E. rewrite E. split; [discriminate|].
    intros [H _]. apply truthy_true in E. contradiction.
Qed.

(** C10: when the form passes [validateForm], the record that [onSubmit]
    receives has the name trimmed, the email trimmed and put in lower
    case, the course identifier parsed by [Number.parseInt], which is
    the course's own identifier when the value selected is that of a
    course option whose identifier is an integer up to 2^53 in
    magnitude, and the image entered, or, when none was entered, the
    address ["/placeholder.svg?height=40&width=40&query="] followed by
    the name and [" professional photo"] percent-encoded; the image
    passed is never empty.  [onSubmit] is called whenever an image was
    entered or [encodeURIComponent] does not throw, and only then. *)
Theorem handleSubmit_normalizes (formData : FormData) :
  validateForm formData = true ->
  (handleSubmit formData = None <->
   profileImage formData = EmptyString
   /\ throwsURIError (StudentForm.name formData +:+ " professional photo") = true)
  /\ forall submitted,
       handleSubmit formData = Some submitted ->
       submittedName submitted = trim (StudentForm.name formData)
       /\ isTrimOf (submittedName submitted) (StudentForm.name formData)
       /\ submittedEmail submitted = toLowerCase (trim (email formData))
       /\ isLowerCase (submittedEmail submitted)
       /\ submittedCourseId submitted = Number_parseInt (courseId formData)
       /\ (forall k : Z, Z.abs k <= 9007199254740992 ->
                         courseId formData = Number_toString k ->
                         submittedCourseId submitted = Num k)
       /\ (profileImage formData <> EmptyString ->
           submittedProfileImage submitted = profileImage formData)
       /\ (profileImage formData = EmptyString ->
           submittedProfileImage submitted
           = "/placeholder.svg?height=40&width=40&query="
             +:+ encodeURIComponent (StudentForm.name formData +:+ " professional photo"))
       /\ submittedProfileImage submitted <> EmptyString.
Proof.
  intros Hvalid. unfold handleSubmit. rewrite Hvalid. cbn [negb]. split.
  - rewrite <- profileImageOrPlaceholder_None.
    destruct (profileImageOrPlaceholder formData); split; congruence.
  - intros submitted.
    destruct (profileImageOrPlaceholder formData) as [image|] eqn:I; [|discriminate].
    intros [= <-].
    cbn [submittedName submittedEmail submittedCourseId submittedProfileImage].
    destruct (profileImageOrPlaceholder_Some formData image I) as (Hne & Hentered & Hnone).
    split; [reflexivity|]. split; [apply trim_spec|].
    split; [reflexivity|]. split; [apply toLowerCase_isLowerCase|].
    split; [reflexivity|].
    split; [intros k Hk ->; apply Number_parseInt_toString, Hk|].
    auto.
Qed.

(** A form filled with padded, mixed-case entries and no image. *)
Lemma handleSubmit_normalizes_witness :
  validateForm (mkFormData "  Asha Rao " "Asha.Rao@Example.COM" "3" EmptyString) = true
  /\ exists submitted,
       handleSubmit (mkFormData "  Asha Rao " "Asha.Rao@Example.COM" "3" EmptyString)
       = Some submitted
       /\ submittedName submitted = "Asha Rao"
       /\ submittedEmail submitted = "asha.rao@example.com"
       /\ submittedCourseId submitted = Num 3
       /\ submittedProfileImage submitted
          = "/placeholder.svg?height=40&width=40&query=%20%20Asha%20Rao%20%20professional%20photo".
Proof.
  assert (Hvalid : validateForm (mkFormData "  Asha Rao " "Asha.Rao@Example.COM" "3" EmptyString) = true)
    by (vm_compute; reflexivity).
  split; [exact Hvalid|].
  destruct (handleSubmit_normalizes _ Hvalid) as [Hnone Hsome].
  destruct (handleSubmit (mkFormData "  Asha Rao " "Asha.Rao@Example.COM" "3" EmptyString))
    as [submitted|] eqn:E.
  - exists submitted.
    destruct (Hsome submitted eq_refl)
      as (Hname & _ & Hemail & _ & _ & Hcourse & _ & Himage & _).
    split; [reflexivity|]. split; [rewrite Hname; reflexivity|].
    split; [rewrite Hemail; reflexivity|].
    split; [apply (Hcourse 3); [discriminate | reflexivity]|].
    rewrite (Himage eq_refl). vm_compute. reflexivity.
  - exfalso. destruct (proj1 Hnone eq_refl) as [_ Hthrows]. discriminate Hthrows.
Defined.

End HandleSubmit.

(** ** The roster handlers *)

Section RosterFacts.
Import JS Spec Dashboard Roster.

Lemma filter_all {A : Type} (f : A -> bool) (l : list A) :
  (forall x, In x l -> f x = true) -> List.filter f l = l.
Proof.
  induction l as [|x l IH]; simpl; intros H; [reflexivity|].
  rewrite (H x) by auto. f_equal. apply IH. auto.
Qed.

Lemma filter_comm {A : Type} (f g : A -> bool) (l : list A) :
  List.filter f (List.filter g l) = List.filter g (List.filter f l).
Proof.
  induction l as [|x l IH]; simpl; [reflexivity|].
  destruct (f x) eqn:Ef, (g x) eqn:Eg; simpl; rewrite ?Ef, ?Eg, IH; reflexivity.
Qed.

Lemma filter_idem {A : Type} (f : A -> bool) (l : list A) :
  List.filter f (List.filter f l) = List.filter f l.
Proof.
  apply filter_all. intros x H. apply List.filter_In in H. tauto.
Qed.

Lemma keeps_spec (studentId : string) (student : Student) :
  negb (String.eqb (Dashboard.id student) studentId) = true
  <-> Dashboard.id student <> studentId.
Proof.
  rewrite negb_true_iff. destruct (String.eqb_spec (Dashboard.id student) studentId);
    split; congruence.
Qed.

Lemma not_In_ids_filter (studentId : string) (l : list Student) :
  ~ In studentId (List.map Dashboard.id l) ->
  List.filter (fun student => negb (String.eqb (Dashboard.id student) studentId)) l = l.
Proof.
  intros H. apply filter_all. intros x Hx. apply keeps_spec. intros E.
  apply H. rewrite <- E. apply List.in_map. exact Hx.
Qed.

(** X1: [handleDeleteStudent] keeps, in their order, exactly the
    students whose identifier is not the one given, all of those that
    have it being removed; it changes nothing when no student has it,
    and it touches neither the student being edited nor the form. *)
Theorem handleDeleteStudent_spec (studentId : string) (p : Page) :
  selects (fun student => Dashboard.id student <> studentId)
    (students p) (students (handleDeleteStudent studentId p))
  /\ ~ In studentId (List.map Dashboard.id (students (handleDeleteStudent studentId p)))
  /\ (~ In studentId (List.map Dashboard.id (students p)) ->
      handleDeleteStudent studentId p = p)
  /\ editingStudent (handleDeleteStudent studentId p) = editingStudent p
  /\ isFormOpen (handleDeleteStudent studentId p) = isFormOpen p.
Proof.
  split; [|split; [|split; [|split; reflexivity]]].
  - apply selects_filter. intros student. apply keeps_spec.
  - cbn [handleDeleteStudent students]. intros H.
    apply List.in_map_iff in H as (student & E & Hin).
    apply List.filter_In in Hin as [_ Hk]. apply keeps_spec in Hk. contradiction.
  - intros H. destruct p as [l e o]. unfold handleDeleteStudent. cbn [students editingStudent isFormOpen] in *.
    rewrite (not_In_ids_filter studentId l H). reflexivity.
Qed.

(** The page as it starts and an identifier that no student has. *)
Lemma handleDeleteStudent_spec_witness :
  ~ In "7" (List.map Dashboard.id (students initialPage))
  /\ handleDeleteStudent "7" initialPage = initialPage
  /\ List.map Dashboard.id (students (handleDeleteStudent "2" initialPage)) = ["1"; "3"].
Proof.
  assert (H : ~ In "7" (List.map Dashboard.id (students initialPage))).
  { vm_compute. intros [H|[H|[H|[]]]]; discriminate H. }
  split; [exact H|]. split; [|reflexivity].
  exact (proj1 (proj2 (proj2 (handleDeleteStudent_spec "7" initialPage))) H).
Defined.

(** X2: deleting twice with one identifier is deleting once, and two
    deletions give the same page in either order. *)
Theorem handleDeleteStudent_compose (i j : string) (p : Page) :
  handleDeleteStudent i (handleDeleteStudent i p) = handleDeleteStudent i p
  /\ handleDeleteStudent i (handleDeleteStudent j p)
     = handleDeleteStudent j (handleDeleteStudent i p).
Proof.
  unfold handleDeleteStudent. cbn [students editingStudent isFormOpen].
  split; f_equal; [apply filter_idem | apply filter_comm].
Qed.

Lemma filter_app_last (studentId : string) (l : list Student) (x : Student) :
  Dashboard.id x = studentId ->
  List.filter (fun student => negb (String.eqb (Dashboard.id student) studentId)) (l ++ [x])
  = List.filter (fun student => negb (String.eqb (Dashboard.id student) studentId)) l.
Proof.
  intros E. rewrite List.filter_app. simpl.
  rewrite E, String.eqb_refl. simpl. apply List.app_nil_r.
Qed.

(** X3: a student added and then deleted leaves the list of students as
    it was, provided that the identifier taken from the clock was not
    that of a student already there. *)
Theorem handleAddStudent_then_delete
    (studentData : StudentData) (dateNow newDate : Z) (p : Page) :
  ~ In (Number_toString dateNow) (List.map Dashboard.id (students p)) ->
  students (handleDeleteStudent (Number_toString dateNow)
              (handleAddStudent studentData dateNow newDate p))
  = students p.
Proof.
  intros H. cbn [handleDeleteStudent handleAddStudent students].
  rewrite filter_app_last by reflexivity. apply not_In_ids_filter, H.
Qed.

(** A student added to the page as it starts, at the first instant of
    March 2025. *)
Lemma handleAddStudent_then_delete_witness :
  ~ In (Number_toString 1740787200000) (List.map Dashboard.id (students initialPage))
  /\ students (handleDeleteStudent (Number_toString 1740787200000)
                 (handleAddStudent (mkStudentData "Asha Rao" "asha.rao@example.com" 3 "/a.png")
                    1740787200000 1740787200000 initialPage))
     = students initialPage.
Proof.
  assert (H : ~ In (Number_toString 1740787200000)
                (List.map Dashboard.id (students initialPage))).
  { vm_compute. intros [H|[H|[H|[]]]]; discriminate H. }
  split; [exact H|].
  exact (handleAddStudent_then_delete _ 1740787200000 1740787200000 initialPage H).
Defined.

(** X4: two students added on one reading of the clock have the same
    identifier, and one deletion with it removes both. *)
Theorem handleAddStudent_same_clock
    (first second : StudentData) (dateNow newDate1 newDate2 : Z) (p : Page) :
  ~ In (Number_toString dateNow) (List.map Dashboard.id (students p)) ->
  let added :=
    handleAddStudent second dateNow newDate2
      (handleAddStudent first dateNow newDate1 p) in
  students added
  = students p ++ [newStudent first dateNow newDate1; newStudent second dateNow newDate2]
  /\ Dashboard.id (newStudent first dateNow newDate1)
     = Dashboard.id (newStudent second dateNow newDate2)
  /\ ~ List.NoDup (List.map Dashboard.id (students added))
  /\ students (handleDeleteStudent (Number_toString dateNow) added) = students p.
Proof.
  intros H added. subst added. cbn [handleAddStudent handleDeleteStudent students].
  split; [rewrite <- List.app_assoc; reflexivity|]. split; [reflexivity|]. split.
  - rewrite !List.map_app. cbn [List.map newStudent Dashboard.id].
    rewrite <- List.app_assoc. intros Hnd.
    change (List.NoDup (List.map Dashboard.id (students p)
                   ++ Number_toString dateNow :: [Number_toString dateNow])) in Hnd.
    apply List.NoDup_remove_2 in Hnd. apply Hnd.
    apply List.in_or_app. right. left. reflexivity.
  - rewrite !filter_app_last by reflexivity. apply not_In_ids_filter, H.
Qed.

(** Two students added to the page as it starts on one reading of the
    clock. *)
Lemma handleAddStudent_same_clock_witness :
  ~ In (Number_toString 1740787200000) (List.map Dashboard.id (students initialPage))
  /\ students (handleDeleteStudent (Number_toString 1740787200000)
                 (handleAddStudent (mkStudentData "Bo Li" "bo.li@example.com" 2 "/b.png")
                    1740787200000 1740787200001
                    (handleAddStudent (mkStudentData "Asha Rao" "asha.rao@example.com" 3 "/a.png")
                       1740787200000 1740787200000 initialPage)))
     = students initialPage.
Proof.
  assert (H : ~ In (Number_toString 1740787200000)
                (List.map Dashboard.id (students initialPage))).
  { vm_compute. intros [H|[H|[H|[]]]]; discriminate H. }
  split; [exact H|].
  exact (proj2 (proj2 (proj2
           (handleAddStudent_same_clock _ _ 1740787200000 1740787200000 1740787200001
              initialPage H)))).
Defined.

Lemma length_filter_map {A : Type} (f : A -> bool) (g : A -> A) (l : list A) :
  (forall x, f (g x) = f x) ->
  length (List.filter f (List.map g l)) = length (List.filter f l).
Proof.
  intros H. induction l as [|x l IH]; simpl; [reflexivity|].
  rewrite H. destruct (f x); simpl; congruence.
Qed.

Lemma handleEditStudent_ids (studentData : StudentData) (p : Page) :
  List.map Dashboard.id (students (handleEditStudent studentData p))
  = List.map Dashboard.id (students p).
Proof.
  unfold handleEditStudent. destruct (editingStudent p) as [editing|]; [|reflexivity].
  cbn [students]. rewrite List.map_map. apply List.map_ext.
  intros x. destruct (String.eqb _ _); reflexivity.
Qed.

(** X5: [handleEditStudent] never changes how many students there are,
    their order, their identifiers or their enrolment dates, so the
    statistics of the dashboard are the same before and after. *)
Theorem handleEditStudent_preserves
    (studentData : StudentData) (p : Page) (courses : list Course) (now : Z) :
  List.map Dashboard.id (students (handleEditStudent studentData p))
  = List.map Dashboard.id (students p)
  /\ List.map Dashboard.createdAt (students (handleEditStudent studentData p))
     = List.map Dashboard.createdAt (students p)
  /\ length (students (handleEditStudent studentData p)) = length (students p)
  /\ dashboardStats (students (handleEditStudent studentData p)) courses now
     = dashboardStats (students p) courses now.
Proof.
  unfold handleEditStudent. destruct (editingStudent p) as [editing|]; [|auto].
  cbn [students].
  set (g := fun student : Student =>
              if String.eqb (Dashboard.id student) (Dashboard.id editing)
              then merge student studentData else student).
  assert (Hid : forall x, Dashboard.id (g x) = Dashboard.id x).
  { intros x. unfold g. destruct (String.eqb _ _); reflexivity. }
  assert (Hat : forall x, Dashboard.createdAt (g x) = Dashboard.createdAt x).
  { intros x. unfold g. destruct (String.eqb _ _); reflexivity. }
  split; [rewrite List.map_map; apply List.map_ext, Hid|].
  split; [rewrite List.map_map; apply List.map_ext, Hat|].
  split; [apply List.length_map|].
  unfold dashboardStats. rewrite List.length_map.
  rewrite (length_filter_map (isRecent now) g); [reflexivity|].
  intros x. unfold isRecent. rewrite Hat. reflexivity.
Qed.

(** X6: with no student being edited [handleEditStudent] does nothing at
    all, the form staying as it is; otherwise it closes the form, and
    each student of the list that has the identifier of the edited one
    takes the four fields submitted and keeps its identifier and date,
    every other student staying as it was; when no student has that
    identifier the list is unchanged. *)
Theorem handleEditStudent_spec (studentData : StudentData) (p : Page) :
  match editingStudent p with
  | None => handleEditStudent studentData p = p
  | Some editing =>
      editingStudent (handleEditStudent studentData p) = None
      /\ isFormOpen (handleEditStudent studentData p) = false
      /\ Forall2
           (fun old new =>
              (Dashboard.id old = Dashboard.id editing ->
               Dashboard.name new = name studentData
               /\ Dashboard.email new = email studentData
               /\ Dashboard.courseId new = courseId studentData
               /\ Dashboard.profileImage new = Some (profileImage studentData)
               /\ Dashboard.id new = Dashboard.id old
               /\ Dashboard.createdAt new = Dashboard.createdAt old)
              /\ (Dashboard.id old <> Dashboard.id editing -> new = old))
           (students p) (students (handleEditStudent studentData p))
      /\ (~ In (Dashboard.id editing) (List.map Dashboard.id (students p)) ->
          students (handleEditStudent studentData p) = students p)
  end.
Proof.
  unfold handleEditStudent. destruct (editingStudent p) as [editing|]; [|reflexivity].
  cbn [students editingStudent isFormOpen].
  split; [reflexivity|]. split; [reflexivity|]. split.
  - induction (students p) as [|x l IH]; simpl; constructor; [|exact IH].
    destruct (String.eqb_spec (Dashboard.id x) (Dashboard.id editing)) as [E|E];
      split; intros H; try contradiction; auto.
    repeat split.
  - intros H. induction (students p) as [|x l IH]; simpl; [reflexivity|].
    destruct (String.eqb_spec (Dashboard.id x) (Dashboard.id editing)) as [E|E].
    + destruct H. left. exact E.
    + f_equal. apply IH. intros Hin. apply H. right. exact Hin.
Qed.

(** The second student of the page as it starts, edited. *)
Lemma handleEditStudent_spec_witness :
  students (handleEditStudent (mkStudentData "Om P." "om@example.com" 4 "/om.png")
              (openEditForm (mkStudent "9" "Nobody" "n@example.com" 1 None 0) initialPage))
  = students initialPage
  /\ List.map Dashboard.name
       (students (handleEditStudent (mkStudentData "Om P." "om@example.com" 4 "/om.png")
                    (openEditForm (mkStudent "2" "Om Patel" "om.patel@gmail.com" 2
                                     (Some "/professional-man.png") 1740009600000)
                       initialPage)))
     = ["Rajesh Patil"; "Om P."; "Ansh Bari"].
Proof.
  split; [|reflexivity].
  pose proof (handleEditStudent_spec (mkStudentData "Om P." "om@example.com" 4 "/om.png")
                (openEditForm (mkStudent "9" "Nobody" "n@example.com" 1 None 0) initialPage))
    as H.
  cbn [openEditForm editingStudent] in H. destruct H as (_ & _ & _ & H).
  apply H. vm_compute. intros [E|[E|[E|[]]]]; discriminate E.
Defined.

Lemma NoDup_snoc {A : Type} (l : list A) (a : A) :
  List.NoDup l -> ~ In a l -> List.NoDup (l ++ [a]).
Proof.
  induction l as [|x l IH]; simpl; intros Hnd Hin.
  - constructor; [intros []|constructor].
  - inversion Hnd as [|? ? Hx Hl]; subst. constructor.
    + intros H. apply List.in_app_or in H as [H|[H|[]]]; [contradiction|].
      apply Hin. left. symmetry. exact H.
    + apply IH; [exact Hl|]. intros H. apply Hin. right. exact H.
Qed.

Lemma NoDup_ids_filter (f : Student -> bool) (l : list Student) :
  List.NoDup (List.map Dashboard.id l) -> List.NoDup (List.map Dashboard.id (List.filter f l)).
Proof.
  induction l as [|x l IH]; simpl; intros H; [exact H|].
  inversion H as [|? ? Hx Hl]; subst.
  destruct (f x); simpl; [constructor|]; auto.
  intros Hin. apply Hx. apply List.in_map_iff in Hin as (y & E & Hy).
  apply List.in_map_iff. exists y. split; [exact E|].
  apply List.filter_In in Hy. tauto.
Qed.

(** X7: when no two students have the same identifier, that is still so
    after a deletion, after an edit, and after an addition whose
    identifier is not yet in the list. *)
Theorem unique_ids_kept
    (studentData : StudentData) (studentId : string) (dateNow newDate : Z) (p : Page) :
  List.NoDup (List.map Dashboard.id (students p)) ->
  List.NoDup (List.map Dashboard.id (students (handleDeleteStudent studentId p)))
  /\ List.NoDup (List.map Dashboard.id (students (handleEditStudent studentData p)))
  /\ (~ In (Number_toString dateNow) (List.map Dashboard.id (students p)) ->
      List.NoDup (List.map Dashboard.id
               (students (handleAddStudent studentData dateNow newDate p)))).
Proof.
  intros H. split; [apply NoDup_ids_filter, H|]. split.
  - rewrite handleEditStudent_ids. exact H.
  - intros Hfresh. cbn [handleAddStudent students].
    rewrite List.map_app. apply NoDup_snoc; assumption.
Qed.

(** The page as it starts, whose three identifiers differ. *)
Lemma unique_ids_kept_witness :
  List.NoDup (List.map Dashboard.id (students initialPage))
  /\ List.NoDup (List.map Dashboard.id (students (handleDeleteStudent "2" initialPage)))
  /\ List.NoDup (List.map Dashboard.id
              (students (handleAddStudent (mkStudentData "Asha Rao" "asha.rao@example.com" 3 "/a.png")
                           1740787200000 1740787200000 initialPage))).
Proof.
  assert (H : List.NoDup (List.map Dashboard.id (students initialPage))).
  { vm_compute. repeat constructor; simpl; intuition discriminate. }
  assert (Hfresh : ~ In (Number_toString 1740787200000)
                     (List.map Dashboard.id (students initialPage))).
  { vm_compute. intros [E|[E|[E|[]]]]; discriminate E. }
  destruct (unique_ids_kept (mkStudentData "Asha Rao" "asha.rao@example.com" 3 "/a.png")
              "2" 1740787200000 1740787200000 initialPage H) as (Hd & _ & Ha).
  split; [exact H|]. split; [exact Hd|]. exact (Ha Hfresh).
Defined.

End RosterFacts.

(** ** The student form: validation and resubmission *)

Section FormFacts.
Import JS RegExp Spec Spec2 StudentForm EditForm.

Lemma allChars_app (f : ascii -> bool) (s1 s2 : string) :
  allChars f (s1 +:+ s2) = allChars f s1 && allChars f s2.
Proof.
  induction s1 as [|c s1 IH]; simpl; [reflexivity|].
  rewrite IH. apply andb_assoc.
Qed.

Lemma allChars_impl (f g : ascii -> bool) (s : string) :
  (forall c, f c = true -> g c = true) ->
  allChars f s = true -> allChars g s = true.
Proof.
  intros H. induction s as [|c s IH]; simpl; [reflexivity|].
  rewrite !andb_true_iff. intros [Hc Hs]. auto.
Qed.

Lemma plainChar_noSpace (c : ascii) : plainChar c = true -> negb (isWhiteSpace c) = true.
Proof. unfold plainChar. rewrite andb_true_iff. tauto. Qed.

(** An email that the form accepts holds no white space. *)
Lemma validateEmail_noSpace (e : string) :
  validateEmail e = true ->
  e <> EmptyString /\ allChars (fun c => negb (isWhiteSpace c)) e = true.
Proof.
  intros H. apply validateEmail_shape in H as (l & x & y & -> & [Hl Al] & [_ Ax] & [_ Ay]).
  split.
  - destruct l; [congruence | discriminate].
  - rewrite !allChars_app.
    rewrite (allChars_impl _ _ l plainChar_noSpace Al).
    rewrite (allChars_impl _ _ x plainChar_noSpace Ax).
    rewrite (allChars_impl _ _ y plainChar_noSpace Ay). reflexivity.
Qed.

Lemma trimStart_fixed (s : string) : startsWithSpace s = false -> trimStart s = s.
Proof. destruct s as [|c s]; simpl; [reflexivity|]. intros ->. reflexivity. Qed.

Lemma trimEnd_fixed (s : string) : endsWithSpace s = false -> trimEnd s = s.
Proof.
  induction s as [|c s IH]; [reflexivity|].
  destruct s as [|d s].
  - simpl. intros ->. reflexivity.
  - intros H. change (endsWithSpace (String d s) = false) in H.
    cbn [trimEnd]. cbn [trimEnd] in IH. rewrite (IH H). reflexivity.
Qed.

Lemma noSpace_ends (s : string) :
  allChars (fun c => negb (isWhiteSpace c)) s = true ->
  startsWithSpace s = false /\ endsWithSpace s = false.
Proof.
  intros H. split.
  - destruct s as [|c s]; [reflexivity|]. simpl in *.
    apply andb_true_iff in H as [H _]. apply negb_true_iff, H.
  - induction s as [|c s IH]; [reflexivity|].
    simpl in H. apply andb_true_iff in H as [Hc Hs].
    destruct s as [|d s]; [apply negb_true_iff, Hc | apply IH, Hs].
Qed.

Lemma trim_noSpace (s : string) :
  allChars (fun c => negb (isWhiteSpace c)) s = true -> trim s = s.
Proof.
  intros H. apply noSpace_ends in H as [Hs He]. unfold trim.
  rewrite (trimStart_fixed s Hs). apply trimEnd_fixed, He.
Qed.

Lemma trim_idem (s : string) : trim (trim s) = trim s.
Proof.
  destruct (trim_spec s) as (_ & _ & _ & _ & _ & Hs & He).
  unfold trim at 1. rewrite (trimStart_fixed _ Hs). apply trimEnd_fixed, He.
Qed.

Lemma lowerChar_idem (c : ascii) : lowerChar (lowerChar c) = lowerChar c.
Proof. destruct c as [[] [] [] [] [] [] [] []]; reflexivity. Qed.

Lemma lowerChar_plain (c : ascii) : plainChar (lowerChar c) = plainChar c.
Proof. destruct c as [[] [] [] [] [] [] [] []]; reflexivity. Qed.

Lemma toLowerCase_idem (s : string) : toLowerCase (toLowerCase s) = toLowerCase s.
Proof.
  induction s as [|c s IH]; simpl; [reflexivity|]. rewrite lowerChar_idem, IH. reflexivity.
Qed.

Lemma toLowerCase_plainPart (s : string) : plainPart s -> plainPart (toLowerCase s).
Proof.
  intros [Hne H]. split.
  - destruct s; [congruence | discriminate].
  - clear Hne. induction s as [|c s IH]; simpl in *; [reflexivity|].
    apply andb_true_iff in H as [Hc Hs]. rewrite lowerChar_plain, Hc. apply IH, Hs.
Qed.

(** Lower-casing an accepted email gives an accepted email. *)
Lemma validateEmail_toLowerCase (e : string) :
  validateEmail e = true -> validateEmail (toLowerCase e) = true.
Proof.
  intros H. apply validateEmail_shape in H as (l & x & y & -> & Hl & Hx & Hy).
  apply validateEmail_shape.
  exists (toLowerCase l), (toLowerCase x), (toLowerCase y).
  split; [|auto using toLowerCase_plainPart].
  rewrite toLowerCase_append. f_equal.
  change ("@" +:+ x +:+ "." +:+ y) with (String "@" (x +:+ String "." y)).
  cbn [toLowerCase]. rewrite toLowerCase_append. reflexivity.
Qed.

Lemma truthy_false (s : string) : truthy s = false <-> s = EmptyString.
Proof.
  unfold truthy. destruct (String.eqb_spec s EmptyString); simpl; split; congruence.
Qed.

Lemma nameError_None (formData : FormData) :
  nameError (newErrors formData) = None
  <-> (2 <= String.length (trim (name formData)))%nat.
Proof.
  cbn [newErrors nameError].
  destruct (truthy (trim (name formData))) eqn:T; simpl.
  - destruct (Nat.ltb_spec (String.length (trim (name formData))) 2); split;
      try discriminate; try reflexivity; lia.
  - apply truthy_false in T. rewrite T. simpl. split; [discriminate | lia].
Qed.

Lemma emailError_None (formData : FormData) :
  emailError (newErrors formData) = None <-> validateEmail (email formData) = true.
Proof.
  cbn [newErrors emailError].
  destruct (validateEmail (email formData)) eqn:V.
  - destruct (validateEmail_noSpace _ V) as [Hne Hns].
    rewrite (trim_noSpace _ Hns). apply truthy_true in Hne. rewrite Hne. simpl. tauto.
  - destruct (truthy (trim (email formData))); simpl; split; discriminate.
Qed.

Lemma courseIdError_None (formData : FormData) :
  courseIdError (newErrors formData) = None <-> courseId formData <> EmptyString.
Proof.
  cbn [newErrors courseIdError].
  destruct (truthy (courseId formData)) eqn:T; simpl.
  - apply truthy_true in T. tauto.
  - apply truthy_false in T. split; [discriminate | congruence].
Qed.

Lemma validateForm_iff (formData : FormData) :
  validateForm formData = true
  <-> (2 <= String.length (trim (name formData)))%nat
      /\ validateEmail (email formData) = true
      /\ courseId formData <> EmptyString.
Proof.
  rewrite <- nameError_None, <- emailError_None, <- courseIdError_None.
  unfold validateForm. destruct (newErrors formData) as [[a|] [b|] [c|]]; simpl;
    (split; intros H; try discriminate H;
     try (destruct H as (? & ? & ?); discriminate); auto).
Qed.

Lemma handleSubmit_Some (formData : FormData) (submitted : Submitted) :
  handleSubmit formData = Some submitted ->
  validateForm formData = true
  /\ submitted
     = {| submittedName := trim (name formData);
          submittedEmail := toLowerCase (email formData);
          submittedCourseId := Number_parseInt (courseId formData);
          submittedProfileImage :=
            if truthy (profileImage formData) then profileImage formData
            else placeholder (name formData) |}.
Proof.
  unfold handleSubmit, profileImageOrPlaceholder.
  destruct (validateForm formData) eqn:V; [|discriminate]. cbn [negb].
  assert (E : toLowerCase (trim (email formData)) = toLowerCase (email formData)).
  { apply validateForm_iff in V as (_ & V & _).
    destruct (validateEmail_noSpace _ V) as [_ Hns].
    rewrite (trim_noSpace _ Hns). reflexivity. }
  rewrite E.
  destruct (truthy (profileImage formData)).
  - intros [= <-]. split; reflexivity.
  - destruct (throwsURIError _); [discriminate|]. intros [= <-]. split; reflexivity.
Qed.



Lemma toString_nonempty (k : Z) : Number_toString k <> EmptyString.
Proof.
  intros E. pose proof (parseInt_toString k) as H. rewrite E in H. discriminate H.
Qed.

Lemma submitted_image_truthy (formData : FormData) :
  truthy (if truthy (profileImage formData) then profileImage formData
          else placeholder (name formData)) = true.
Proof.
  destruct (truthy (profileImage formData)) eqn:T; [exact T|].
  apply truthy_true. discriminate.
Qed.

(** X9: a record that the form has submitted with a course identifier
    that is an integer up to 2^53 in magnitude, put back into the form
    as the student to edit and submitted as it is, is submitted
    unchanged: the name, the email, the course and the image are the
    same. *)
Theorem handleSubmit_resubmit
    (formData : FormData) (submitted : Submitted) (k : Z) (studentId : string) (at_ : Z) :
  handleSubmit formData = Some submitted ->
  submittedCourseId submitted = Num k ->
  Z.abs k <= 9007199254740992 ->
  handleSubmit
    (populate (Dashboard.mkStudent studentId (submittedName submitted)
                 (submittedEmail submitted) k
                 (Some (submittedProfileImage submitted)) at_))
  = Some submitted.
Proof.
  intros H Hk Hsafe. apply handleSubmit_Some in H as [V ->].
  cbn [submittedCourseId] in Hk.
  unfold populate.
  cbn [submittedName submittedEmail submittedProfileImage
       Dashboard.name Dashboard.email Dashboard.courseId Dashboard.profileImage].
  apply validateForm_iff in V as (Vn & Ve & _).
  pose proof (validateEmail_toLowerCase _ Ve) as Ve'.
  destruct (validateEmail_noSpace _ Ve') as [_ Hns].
  unfold handleSubmit.
  assert (V' : validateForm
                 {| name := trim (name formData);
                    email := toLowerCase (email formData);
                    courseId := Number_toString k;
                    profileImage :=
                      if truthy (profileImage formData) then profileImage formData
                      else placeholder (name formData) |} = true).
  { apply validateForm_iff. cbn [name email courseId].
    rewrite trim_idem. auto using toString_nonempty. }
  rewrite V'. unfold profileImageOrPlaceholder. cbn [negb name email courseId profileImage].
  rewrite trim_idem, (trim_noSpace _ Hns), toLowerCase_idem.
  rewrite (Number_parseInt_toString k Hsafe), Hk.
  rewrite submitted_image_truthy. reflexivity.
Qed.

(** A form filled with padded, mixed-case entries, then its record put
    back and submitted again. *)
Lemma handleSubmit_resubmit_witness :
  handleSubmit (mkFormData "  Asha Rao " "Asha.Rao@Example.COM" "3" EmptyString)
  = Some (mkSubmitted "Asha Rao" "asha.rao@example.com" (Num 3)
            "/placeholder.svg?height=40&width=40&query=%20%20Asha%20Rao%20%20professional%20photo")
  /\ handleSubmit
       (populate (Dashboard.mkStudent "7" "Asha Rao" "asha.rao@example.com" 3
                    (Some "/placeholder.svg?height=40&width=40&query=%20%20Asha%20Rao%20%20professional%20photo")
                    0))
     = Some (mkSubmitted "Asha Rao" "asha.rao@example.com" (Num 3)
               "/placeholder.svg?height=40&width=40&query=%20%20Asha%20Rao%20%20professional%20photo").
Proof.
  assert (H : handleSubmit (mkFormData "  Asha Rao " "Asha.Rao@Example.COM" "3" EmptyString)
              = Some (mkSubmitted "Asha Rao" "asha.rao@example.com" (Num 3)
                        "/placeholder.svg?height=40&width=40&query=%20%20Asha%20Rao%20%20professional%20photo"))
    by (vm_compute; reflexivity).
  split; [exact H|].
  assert (Hsafe : Z.abs 3 <= 9007199254740992) by discriminate.
  exact (handleSubmit_resubmit _ _ 3 "7" 0 H eq_refl Hsafe).
Defined.

Lemma wellFormed_of_submitted
    (formData : FormData) (submitted : Submitted) (data : Roster.StudentData)
    (studentId : string) (at_ : Z) :
  handleSubmit formData = Some submitted ->
  studentDataOf submitted = Some data ->
  wellFormed
    (Dashboard.mkStudent studentId (Roster.name data) (Roster.email data)
       (Roster.courseId data) (Some (Roster.profileImage data)) at_).
Proof.
  intros H Hd. apply handleSubmit_Some in H as [V ->].
  unfold studentDataOf in Hd. cbn [submittedCourseId submittedName submittedEmail
                                   submittedProfileImage] in Hd.
  destruct (Number_parseInt (courseId formData)) as [| |k]; try discriminate.
  injection Hd as <-.
  apply validateForm_iff in V as (Vn & Ve & _).
  unfold wellFormed. cbn.
  split; [exact Vn|]. split; [apply trim_idem|].
  split; [apply validateEmail_toLowerCase, Ve|]. split; [apply toLowerCase_idem|].
  eexists. split; [reflexivity|]. apply truthy_true, submitted_image_truthy.
Qed.

(** X10: if every student of the list is as the form lets records
    through (name of two characters or more with no white space around,
    accepted lower-case email, an image), that is still so after the
    page has handled a submission of the form, be it an addition or an
    edit, and after a deletion. *)
Theorem roster_wellFormed_kept
    (formData : FormData) (submitted : Submitted) (data : Roster.StudentData)
    (dateNow newDate : Z) (studentId : string) (p : Roster.Page) :
  Forall wellFormed (Roster.students p) ->
  handleSubmit formData = Some submitted ->
  studentDataOf submitted = Some data ->
  Forall wellFormed (Roster.students (Roster.onSubmit data dateNow newDate p))
  /\ Forall wellFormed (Roster.students (Roster.handleDeleteStudent studentId p)).
Proof.
  intros Hp H Hd. split.
  - unfold Roster.onSubmit, Roster.handleEditStudent, Roster.handleAddStudent.
    destruct (Roster.editingStudent p) as [editing|]; cbn [Roster.students].
    + apply List.Forall_forall. intros x Hx.
      apply List.in_map_iff in Hx as (y & <- & Hy).
      destruct (String.eqb _ _).
      * apply (wellFormed_of_submitted formData submitted data _ _ H Hd).
      * rewrite List.Forall_forall in Hp. apply Hp, Hy.
    + apply List.Forall_app. split; [exact Hp|]. constructor; [|constructor].
      apply (wellFormed_of_submitted formData submitted data _ _ H Hd).
  - cbn [Roster.handleDeleteStudent Roster.students].
    apply List.Forall_forall. intros x Hx. apply List.filter_In in Hx as [Hx _].
    rewrite List.Forall_forall in Hp. apply Hp, Hx.
Qed.

(** The page as it starts, and a student added through the form. *)
Lemma roster_wellFormed_kept_witness :
  Forall wellFormed (Roster.students Roster.initialPage)
  /\ Forall wellFormed
       (Roster.students
          (Roster.onSubmit
             (Roster.mkStudentData "Asha Rao" "asha.rao@example.com" 3
                "/placeholder.svg?height=40&width=40&query=%20%20Asha%20Rao%20%20professional%20photo")
             1740787200000 1740787200000 Roster.initialPage)).
Proof.
  assert (Hp : Forall wellFormed (Roster.students Roster.initialPage)).
  { repeat constructor; try (vm_compute; reflexivity); try (simpl; lia);
      eexists; (split; [reflexivity | discriminate]). }
  assert (H : handleSubmit (mkFormData "  Asha Rao " "Asha.Rao@Example.COM" "3" EmptyString)
              = Some (mkSubmitted "Asha Rao" "asha.rao@example.com" (Num 3)
                        "/placeholder.svg?height=40&width=40&query=%20%20Asha%20Rao%20%20professional%20photo"))
    by (vm_compute; reflexivity).
  split; [exact Hp|].
  exact (proj1 (roster_wellFormed_kept _ _ _ 1740787200000 1740787200000 "1"
                  Roster.initialPage Hp H eq_refl)).
Defined.

Lemma encodeChar_safe (c : ascii) : allChars isUriSafe (encodeChar c) = true.
Proof. destruct c as [[] [] [] [] [] [] [] []]; reflexivity. Qed.

Lemma encodeURIComponent_safe (s : string) :
  allChars isUriSafe (encodeURIComponent s) = true.
Proof.
  induction s as [|c s IH]; [reflexivity|].
  cbn [encodeURIComponent]. rewrite allChars_app, encodeChar_safe, IH. reflexivity.
Qed.

Lemma allChars_not_includes (f : ascii -> bool) (s : string) (c : ascii) :
  allChars f s = true -> f c = false -> includes s (String c EmptyString) = false.
Proof.
  intros H Hc. induction s as [|a s IH]; [reflexivity|].
  simpl in H. apply andb_true_iff in H as [Ha Hs].
  cbn [includes startsWith]. rewrite (IH Hs).
  destruct (Ascii.eqb_spec a c) as [->|]; [congruence | reflexivity].
Qed.

(** X11: the address that stands in for a missing image is the fixed
    prefix followed by a query value made only of letters, digits, the
    marks that [encodeURIComponent] keeps and percent escapes; whatever
    the name typed, the value holds no [&], [#], [=], [?], [/], double
    quote or space, so the name cannot add to or cut short the query. *)
Theorem placeholder_safe (enteredName : string) :
  exists query,
    placeholder enteredName = "/placeholder.svg?height=40&width=40&query=" +:+ query
    /\ query <> EmptyString
    /\ allChars isUriSafe query = true
    /\ includes query "&" = false
    /\ includes query "#" = false
    /\ includes query "=" = false
    /\ includes query "?" = false
    /\ includes query "/" = false
    /\ includes query " " = false
    /\ includes query (String "034" EmptyString) = false.
Proof.
  exists (encodeURIComponent (enteredName +:+ " professional photo")).
  pose proof (encodeURIComponent_safe (enteredName +:+ " professional photo")) as H.
  split; [reflexivity|]. split.
  - intros E. induction enteredName as [|c s IH]; [discriminate E|].
    cbn [String.append encodeURIComponent] in E.
    apply append_eq_empty in E as [E _].
    destruct c as [[] [] [] [] [] [] [] []]; discriminate E.
  - split; [exact H|].
    repeat split; apply (allChars_not_includes isUriSafe _ _ H); reflexivity.
Qed.

End FormFacts.

(** ** The student list: [getCourseName] *)

Section CourseNameFacts.
Import JS MockApi StudentList.

Lemma find_first (k : Z) (before after : list Course) (c : Course) :
  (forall b, In b before -> id b <> k) -> id c = k ->
  List.find (fun c => id c =? k) (before ++ c :: after) = Some c.
Proof.
  intros Hb Hc. induction before as [|b before IH]; simpl.
  - rewrite Hc, Z.eqb_refl. reflexivity.
  - destruct (Z.eqb_spec (id b) k) as [E|_].
    { exfalso. apply (Hb b); [left; reflexivity | exact E]. }
    apply IH. intros x Hx. apply Hb. right. exact Hx.
Qed.

(** X12: the label of a course is never empty.  It is the name of the
    first course of the list that has the identifier, when that name is
    not empty, and ["Unknown Course"] when that name is empty or when no
    course has the identifier, as is the case of every identifier while
    the courses are not loaded; each course of the catalog is labelled
    with its name. *)
Theorem getCourseName_spec (courses : list Course) (courseId : Z) :
  getCourseName courses courseId <> EmptyString
  /\ ((forall c, In c courses -> id c <> courseId) ->
      getCourseName courses courseId = "Unknown Course")
  /\ (forall before c after,
        courses = before ++ c :: after ->
        (forall b, In b before -> id b <> courseId) -> id c = courseId ->
        getCourseName courses courseId
        = if String.eqb (name c) EmptyString then "Unknown Course" else name c)
  /\ getCourseName [] courseId = "Unknown Course"
  /\ (forall c, In c catalog -> getCourseName catalog (id c) = name c).
Proof.
  split; [|split; [|split; [|split]]].
  - unfold getCourseName. destruct (List.find _ courses) as [c|]; [|discriminate].
    destruct (truthy (name c)) eqn:T; [apply truthy_true, T | discriminate].
  - intros H. unfold getCourseName.
    destruct (List.find _ courses) as [c|] eqn:F; [|reflexivity].
    apply List.find_some in F as [Hin E]. apply Z.eqb_eq in E. destruct (H c Hin E).
  - intros before c after -> Hb Hc. unfold getCourseName.
    rewrite (find_first courseId before after c Hb Hc). unfold truthy.
    destruct (String.eqb (name c) EmptyString); reflexivity.
  - reflexivity.
  - intros c [<-|[<-|[<-|[<-|[]]]]]; reflexivity.
Qed.

(** The catalog, an identifier that it lacks and one that it has. *)
Lemma getCourseName_spec_witness :
  getCourseName catalog 9 = "Unknown Course"
  /\ getCourseName catalog 3 = "JavaScript Pro".
Proof.
  destruct (getCourseName_spec catalog 9) as (_ & Hnone & _).
  destruct (getCourseName_spec catalog 3) as (_ & _ & Hfirst & _).
  split.
  - apply Hnone. intros c [<-|[<-|[<-|[<-|[]]]]]; discriminate.
  - apply (Hfirst [mkCourse 1 "HTML Basics"; mkCourse 2 "CSS Mastery"]
             (mkCourse 3 "JavaScript Pro") [mkCourse 4 "React In Depth"]);
      [reflexivity | intros b [<-|[<-|[]]]; discriminate | reflexivity].
Defined.

End CourseNameFacts.

(** ** The mock API called repeatedly *)

Section CallsFacts.
Import JS MockApi Calls.

Lemma getCourses_grows (sample : Q) (σ : store) (l : loc) (v : cell) :
  σ !! l = Some v -> snd (getCourses sample σ) !! l = Some v.
Proof.
  intros H. unfold getCourses. destruct (sampleFails sample); [exact H|].
  destruct (readSlots σ COURSES_DATA) as [elems|]; [|exact H].
  cbn [alloc snd]. rewrite lookup_insert_ne; [exact H|].
  intros E. pose proof (is_fresh (dom σ)) as Hf. apply not_elem_of_dom in Hf.
  rewrite E in Hf. congruence.
Qed.

(** X13: however many times [getCourses] is called, and whatever the
    samples, no cell of the store that was there before is changed or
    removed, every array that a call resolves with is at a location that
    was free before the calls, and no two calls resolve with the same
    array. *)
Theorem getCoursesMany_fresh (samples : list Q) (σ : store) :
  (forall l v, σ !! l = Some v -> snd (getCoursesMany samples σ) !! l = Some v)
  /\ (forall r, In r (resolved (fst (getCoursesMany samples σ))) ->
                σ !! r = None /\ is_Some (snd (getCoursesMany samples σ) !! r))
  /\ List.NoDup (resolved (fst (getCoursesMany samples σ))).
Proof.
  revert σ. induction samples as [|sample rest IH]; intros σ.
  { simpl. split; [auto|]. split; [intros r []|constructor]. }
  cbn [getCoursesMany].
  destruct (getCourses sample σ) as [o σ1] eqn:E1.
  destruct (getCoursesMany rest σ1) as [os σ2] eqn:E2.
  specialize (IH σ1). rewrite E2 in IH. cbn [fst snd] in *.
  destruct IH as (Hgrow & Hres & Hnd).
  assert (Hstep : forall l v, σ !! l = Some v -> σ1 !! l = Some v).
  { intros l v H. pose proof (getCourses_grows sample σ l v H) as G.
    rewrite E1 in G. exact G. }
  split; [intros l v H; apply Hgrow, Hstep, H|].
  assert (Hold : forall r, In r (resolved os) -> σ !! r = None).
  { intros r Hr. destruct (Hres r Hr) as [Hn _].
    destruct (σ !! r) as [v|] eqn:Er; [|reflexivity].
    rewrite (Hstep r v Er) in Hn. discriminate. }
  destruct o as [r1|e]; cbn [resolved].
  - apply getCourses_Resolved_inv in E1 as (elems & _ & Hr1 & ->).
    split.
    + intros r [<-|Hr].
      * split; [exact Hr1|]. exists (CArr elems). apply Hgrow, lookup_insert_eq.
      * split; [apply Hold, Hr | apply Hres, Hr].
    + constructor; [|exact Hnd]. intros Hin.
      destruct (Hres r1 Hin) as [Hn _]. rewrite lookup_insert_eq in Hn. discriminate.
  - split; [|exact Hnd]. intros r Hr. split; [apply Hold, Hr | apply Hres, Hr].
Qed.

(** Three calls on the module as loaded, the second of which fails. *)
Lemma getCoursesMany_fresh_witness :
  resolved (fst (getCoursesMany [1 # 2; 1 # 20; 3 # 4] moduleStore)) = [6; 7]%positive
  /\ moduleStore !! 6%positive = None
  /\ snd (getCoursesMany [1 # 2; 1 # 20; 3 # 4] moduleStore) !! COURSES_DATA
     = moduleStore !! COURSES_DATA.
Proof.
  assert (Hc : moduleStore !! COURSES_DATA = Some (CArr [1; 2; 3; 4]%positive))
    by (vm_compute; reflexivity).
  assert (Hr : resolved (fst (getCoursesMany [1 # 2; 1 # 20; 3 # 4] moduleStore))
               = [6; 7]%positive) by (vm_compute; reflexivity).
  destruct (getCoursesMany_fresh [1 # 2; 1 # 20; 3 # 4] moduleStore) as (Hgrow & Hres & _).
  split; [exact Hr|]. split.
  - apply Hres. rewrite Hr. left. reflexivity.
  - rewrite Hc. apply Hgrow, Hc.
Defined.

End CallsFacts.

(** ** The filtered view and the statistics, as the roster changes *)

Section ViewFacts.
Import JS Spec Dashboard Roster.

Lemma filter_sublist_impl {A : Type} (f g : A -> bool) (l : list A) :
  (forall x, f x = true -> g x = true) ->
  sublist (List.filter f l) (List.filter g l).
Proof.
  intros H. induction l as [|x l IH]; simpl; [constructor|].
  destruct (f x) eqn:Ef.
  - rewrite (H x Ef). apply sublist_skip, IH.
  - destruct (g x); [apply sublist_cons|]; exact IH.
Qed.

Lemma containsIgnoringCase_trans (s t u : string) :
  containsIgnoringCase s t -> containsIgnoringCase t u -> containsIgnoringCase s u.
Proof.
  unfold containsIgnoringCase. intros (p & q & Hs) (a & b & Ht).
  exists (p +:+ a), (b +:+ q). rewrite Hs, Ht, !append_assoc. reflexivity.
Qed.

(** X14: with nothing typed in the search box and all courses selected
    every student is listed; whatever is typed or selected the students
    listed are at most as many as the students. *)
Theorem filteredStudents_all
    (students : list Student) (searchTerm selectedCourse : string) :
  filteredStudents students EmptyString "all" = students
  /\ (length (filteredStudents students searchTerm selectedCourse) <= length students)%nat.
Proof.
  split.
  - apply filter_all. intros x _. unfold matchesSearch, matchesCourse.
    cbn [toLowerCase]. rewrite includes_empty. reflexivity.
  - apply List.filter_length_le.
Qed.

(** X15: a search term in which an earlier term occurs once both are
    in lower case lists a subsequence of what the earlier term listed;
    and selecting one course lists a subsequence of what all courses
    list. *)
Theorem filteredStudents_narrows
    (students : list Student) (earlier later selectedCourse : string) :
  (containsIgnoringCase later earlier ->
   sublist (filteredStudents students later selectedCourse)
     (filteredStudents students earlier selectedCourse))
  /\ sublist (filteredStudents students earlier selectedCourse)
       (filteredStudents students earlier "all").
Proof.
  split.
  - intros H. apply filter_sublist_impl. intros x.
    rewrite !andb_true_iff, !matchesSearch_spec. intros [[Hn|He] Hc].
    + split; [left; exact (containsIgnoringCase_trans _ _ _ Hn H) | exact Hc].
    + split; [right; exact (containsIgnoringCase_trans _ _ _ He H) | exact Hc].
  - apply filter_sublist_impl. intros x. rewrite !andb_true_iff. intros [Hs _].
    split; [exact Hs | reflexivity].
Qed.

(** The students that the page starts with: ["PA"], then ["Pati"]. *)
Lemma filteredStudents_narrows_witness :
  containsIgnoringCase "Pati" "PA"
  /\ sublist (filteredStudents initialStudents "Pati" "all")
       (filteredStudents initialStudents "PA" "all")
  /\ List.map Dashboard.name (filteredStudents initialStudents "PA" "all")
     = ["Rajesh Patil"; "Om Patel"]
  /\ List.map Dashboard.name (filteredStudents initialStudents "Pati" "all")
     = ["Rajesh Patil"].
Proof.
  assert (H : containsIgnoringCase "Pati" "PA").
  { exists EmptyString, "ti". reflexivity. }
  split; [exact H|].
  split; [exact (proj1 (filteredStudents_narrows initialStudents "PA" "Pati" "all") H)|].
  split; reflexivity.
Defined.

(** X16: the search does not tell the cases of the letters typed apart:
    two terms that are the same once in lower case list the same
    students, as do a term and its lower-case form. *)
Theorem filteredStudents_case
    (students : list Student) (term1 term2 selectedCourse : string) :
  (toLowerCase term1 = toLowerCase term2 ->
   filteredStudents students term1 selectedCourse
   = filteredStudents students term2 selectedCourse)
  /\ filteredStudents students (toLowerCase term1) selectedCourse
     = filteredStudents students term1 selectedCourse.
Proof.
  assert (H : forall t1 t2 : string, toLowerCase t1 = toLowerCase t2 ->
                filteredStudents students t1 selectedCourse
                = filteredStudents students t2 selectedCourse).
  { intros t1 t2 E. unfold filteredStudents, matchesSearch. rewrite E. reflexivity. }
  split; [apply H | apply H, toLowerCase_idem].
Qed.

(** ["PAT"] and ["pat"] on the students that the page starts with. *)
Lemma filteredStudents_case_witness :
  toLowerCase "PAT" = toLowerCase "pat"
  /\ filteredStudents initialStudents "PAT" "all" = filteredStudents initialStudents "pat" "all".
Proof.
  assert (H : toLowerCase "PAT" = toLowerCase "pat") by reflexivity.
  split; [exact H|].
  exact (proj1 (filteredStudents_case initialStudents "PAT" "pat" "all") H).
Defined.

(** X17: the filtered view follows the list: after a deletion it is the
    former view without the students deleted, and after an addition it
    is the former view followed by the new student, if the new student
    matches, and the former view itself otherwise. *)
Theorem filteredStudents_follows
    (studentData : StudentData) (studentId : string) (dateNow newDate : Z)
    (searchTerm selectedCourse : string) (p : Page) :
  filteredStudents (students (handleDeleteStudent studentId p)) searchTerm selectedCourse
  = students (handleDeleteStudent studentId
                {| students := filteredStudents (students p) searchTerm selectedCourse;
                   editingStudent := editingStudent p;
                   isFormOpen := isFormOpen p |})
  /\ filteredStudents (students (handleAddStudent studentData dateNow newDate p))
       searchTerm selectedCourse
     = filteredStudents (students p) searchTerm selectedCourse
       ++ (if matchesSearch searchTerm (newStudent studentData dateNow newDate)
              && matchesCourse selectedCourse (newStudent studentData dateNow newDate)
           then [newStudent studentData dateNow newDate] else []).
Proof.
  split.
  - cbn [handleDeleteStudent students]. unfold filteredStudents. apply filter_comm.
  - cbn [handleAddStudent students]. unfold filteredStudents.
    rewrite List.filter_app. reflexivity.
Qed.

End ViewFacts.

(** ** Loads that overlap, and the statistics *)

Section MoreControllerFacts.
Import JS Spec Dashboard Roster Overlap.

(** X18: when [loadCourses] is called again before its fetch has
    settled, the view leaves [Loading] as soon as the first of the two
    fetches settles, the other still being awaited; and once both have
    settled the view is the error view if either fetch failed, even
    when the other succeeded and its courses are in the [courses] cell,
    since the setters of a success do not touch [error].  Called one
    after the other instead, a failure followed by a success ends on the
    courses. *)
Theorem overlappingLoads_spec (first second : settled (list Course)) (s : State) :
  render (run (loadCoursesSettle first) (run loadCoursesBegin (run loadCoursesBegin s)))
  <> Loading
  /\ match first, second with
     | Resolved _, Resolved c2 =>
         render (overlappingLoads first second s) = Ready c2
     | Rejected _, Resolved c2 =>
         render (overlappingLoads first second s)
         = ErrorView "Failed to load courses. Please try again."
         /\ courses (overlappingLoads first second s) = c2
     | Resolved c1, Rejected _ =>
         render (overlappingLoads first second s)
         = ErrorView "Failed to load courses. Please try again."
         /\ courses (overlappingLoads first second s) = c1
     | Rejected _, Rejected _ =>
         render (overlappingLoads first second s)
         = ErrorView "Failed to load courses. Please try again."
         /\ courses (overlappingLoads first second s) = courses s
     end
  /\ match first, second with
     | Rejected _, Resolved c2 =>
         render (loadCoursesWith second (loadCoursesWith first s)) = Ready c2
     | _, _ => True
     end.
Proof.
  destruct first as [c1|e1], second as [c2|e2];
    (split; [discriminate|]); split; try split; reflexivity.
Qed.

Lemma length_filter_le_Z {A : Type} (f : A -> bool) (l : list A) :
  0 <= Z.of_nat (length (List.filter f l)) <= Z.of_nat (length l).
Proof. pose proof (List.filter_length_le f l). lia. Qed.

(** X19: the count of recent enrolments lies between 0 and the number of
    students, and so does the average per course; with a single course
    the average is the number of students, and it is 0 as long as the
    students are fewer than half the courses. *)
Theorem dashboardStats_bounds (students : list Student) (courses : list Course) (now : Z) :
  0 <= recentEnrollments (dashboardStats students courses now)
    <= totalStudents (dashboardStats students courses now)
  /\ 0 <= averagePerCourse (dashboardStats students courses now)
       <= totalStudents (dashboardStats students courses now)
  /\ (length courses = 1%nat ->
      averagePerCourse (dashboardStats students courses now)
      = totalStudents (dashboardStats students courses now))
  /\ (2 * Z.of_nat (length students) < Z.of_nat (length courses) ->
      averagePerCourse (dashboardStats students courses now) = 0).
Proof.
  cbn [dashboardStats recentEnrollments totalStudents averagePerCourse].
  split; [apply length_filter_le_Z|].
  destruct courses as [|c rest].
  { simpl. repeat split; try lia; discriminate. }
  change (0 <? Z.of_nat (length (c :: rest))) with true. cbn iota.
  change (Z.of_nat (length (c :: rest))) with (Z.pos (Pos.of_succ_nat (length rest))).
  pose proof (Math_round_nearest (Z.of_nat (length students))
                (Pos.of_succ_nat (length rest))) as H.
  unfold nearestInteger in H.
  set (k := Math_round _) in *. set (n := Z.of_nat (length students)) in *.
  assert (Hn : 0 <= n) by (subst n; lia).
  set (m := Z.pos (Pos.of_succ_nat (length rest))) in *.
  assert (Hm : 1 <= m) by (subst m; lia).
  split; [nia|]. split.
  - intros E. injection E as E. assert (m = 1) by (subst m; rewrite E; reflexivity). nia.
  - intros Hlt. nia.
Qed.

(** The students that the page starts with, with one course and with
    seven. *)
Lemma dashboardStats_bounds_witness :
  averagePerCourse (dashboardStats initialStudents [mkCourse 1 "HTML Basics"] 0) = 3
  /\ averagePerCourse
       (dashboardStats initialStudents
          (catalog ++ [mkCourse 5 "A"; mkCourse 6 "B"; mkCourse 7 "C"]) 0) = 0.
Proof.
  destruct (dashboardStats_bounds initialStudents [mkCourse 1 "HTML Basics"] 0)
    as (_ & _ & Hone & _).
  destruct (dashboardStats_bounds initialStudents
              (catalog ++ [mkCourse 5 "A"; mkCourse 6 "B"; mkCourse 7 "C"]) 0)
    as (_ & _ & _ & Hfew).
  split; [exact (Hone eq_refl) | apply Hfew; reflexivity].
Defined.

(** X20: a student just added counts at once: as long as less than
    thirty days have passed since the addition, the dashboard shows one
    student more and one recent enrolment more than it would without
    the addition. *)
Theorem handleAddStudent_stats
    (studentData : StudentData) (dateNow newDate now : Z) (courses : list Course) (p : Page) :
  now - newDate < 30 * 86400000 ->
  totalStudents
    (dashboardStats (students (handleAddStudent studentData dateNow newDate p)) courses now)
  = totalStudents (dashboardStats (students p) courses now) + 1
  /\ recentEnrollments
       (dashboardStats (students (handleAddStudent studentData dateNow newDate p)) courses now)
     = recentEnrollments (dashboardStats (students p) courses now) + 1.
Proof.
  intros H. cbn [handleAddStudent students dashboardStats totalStudents recentEnrollments].
  rewrite List.filter_app, !List.length_app.
  assert (R : isRecent now (newStudent studentData dateNow newDate) = true).
  { apply isRecent_spec. cbn [newStudent createdAt]. lia. }
  cbn [List.filter]. rewrite R. simpl length. lia.
Qed.

(** A student added to the page as it starts and counted in the same
    instant. *)
Lemma handleAddStudent_stats_witness :
  1740787200000 - 1740787200000 < 30 * 86400000
  /\ recentEnrollments
       (dashboardStats
          (students (handleAddStudent (mkStudentData "Asha Rao" "asha.rao@example.com" 3 "/a.png")
                       1740787200000 1740787200000 initialPage))
          catalog 1740787200000)
     = recentEnrollments (dashboardStats (students initialPage) catalog 1740787200000) + 1.
Proof.
  assert (H : 1740787200000 - 1740787200000 < 30 * 86400000) by reflexivity.
  split; [exact H|].
  exact (proj2 (handleAddStudent_stats _ 1740787200000 1740787200000 1740787200000
                  catalog initialPage H)).
Defined.

End MoreControllerFacts.

(** ** The mock API and the controller together *)

Section EndToEnd.
Import JS MockApi Dashboard Overlap.

Lemma find_ext (σ σ' : store) (wanted : Z) (elems : list loc) :
  (forall l, readCourse σ' l = readCourse σ l) ->
  find σ' wanted elems = find σ wanted elems.
Proof.
  intros H. induction elems as [|x elems IH]; simpl; [reflexivity|].
  rewrite H, IH. reflexivity.
Qed.

(** X21: a call of [getCourses], failed or not, changes nothing to what
    [getCourseById] returns, for any identifier. *)
Theorem getCourseById_after_getCourses (sample : Q) (wanted : Z) (σ : store) :
  getCourseById wanted (snd (getCourses sample σ)) = getCourseById wanted σ.
Proof.
  unfold getCourses. destruct (sampleFails sample); [reflexivity|].
  destruct (readSlots σ COURSES_DATA) as [elems|] eqn:E; [|reflexivity].
  cbn [alloc snd]. apply readSlots_Some in E.
  pose proof (is_fresh (dom σ)) as Hf. apply not_elem_of_dom in Hf.
  unfold getCourseById. rewrite readSlots_insert_ne by congruence.
  apply readSlots_Some in E. rewrite E. f_equal.
  apply find_ext. intros l. apply readCourse_insert_CArr. intros c. congruence.
Qed.

Lemma loadCourses_step (sample : Q) (σ : store) (s : State) :
  readCourses σ COURSES_DATA = Some catalog ->
  readCourses (snd (loadCourses sample σ s)) COURSES_DATA = Some catalog
  /\ ((sample < FAILURE_RATE)%Q ->
      render (fst (loadCourses sample σ s))
      = ErrorView "Failed to load courses. Please try again.")
  /\ (~ (sample < FAILURE_RATE)%Q ->
      render (fst (loadCourses sample σ s)) = Ready catalog).
Proof.
  intros Hcat. split; [|split].
  - unfold loadCourses, awaitFetchCourses, fetchCourses.
    pose proof (getCourses_frame_catalog sample σ) as F.
    destruct (getCourses sample σ) as [[r|e] σ']; cbn [snd] in *; congruence.
  - intros H. unfold loadCourses. rewrite (awaitFetchCourses_failing sample σ H).
    reflexivity.
  - intros H. apply sampleFails_false in H.
    pose proof Hcat as Hslots. unfold readCourses in Hslots.
    destruct (readSlots σ COURSES_DATA) as [elems|] eqn:E; [|discriminate].
    apply readSlots_Some in E.
    unfold loadCourses, awaitFetchCourses, fetchCourses.
    rewrite (getCourses_not_failing sample σ elems H E).
    pose proof (is_fresh (dom σ)) as Hf. apply not_elem_of_dom in Hf.
    assert (R : readCourses (<[fresh (dom σ) := CArr elems]> σ) (fresh (dom σ))
                = Some catalog).
    { unfold readCourses, readSlots. rewrite lookup_insert_eq. rewrite <- Hslots.
      apply mapM_ext. intros l. apply readCourse_insert_CArr. intros c. congruence. }
    rewrite R. reflexivity.
Qed.

(** X22: however many loads came before, each done before the next,
    and whatever their outcomes, the view after a load depends on its
    own sample only: the error view below the failure rate, the four
    courses of the catalog otherwise; and the catalog is left as it was
    for the loads to come. *)
Theorem loadMany_last (samples : list Q) (sample : Q) (σ : store) (s : State) :
  readCourses σ COURSES_DATA = Some catalog ->
  readCourses (snd (loadMany (samples ++ [sample]) σ s)) COURSES_DATA = Some catalog
  /\ ((sample < FAILURE_RATE)%Q ->
      render (fst (loadMany (samples ++ [sample]) σ s))
      = ErrorView "Failed to load courses. Please try again.")
  /\ (~ (sample < FAILURE_RATE)%Q ->
      render (fst (loadMany (samples ++ [sample]) σ s)) = Ready catalog).
Proof.
  revert σ s. induction samples as [|x samples IH]; intros σ s Hcat.
  - cbn [app loadMany].
    pose proof (loadCourses_step sample σ s Hcat) as H.
    destruct (loadCourses sample σ s) as [s1 σ1]. exact H.
  - cbn [app loadMany].
    pose proof (loadCourses_step x σ s Hcat) as [H _].
    destruct (loadCourses x σ s) as [s1 σ1]. apply IH, H.
Qed.

(** Two failures and then a sample above the rate, from the module as
    loaded and the page as it starts. *)
Lemma loadMany_last_witness :
  readCourses moduleStore COURSES_DATA = Some catalog
  /\ ~ (1 # 2 < FAILURE_RATE)%Q
  /\ render (fst (loadMany ([1 # 20; 1 # 50] ++ [1 # 2]) moduleStore initialState))
     = Ready catalog.
Proof.
  assert (Hcat : readCourses moduleStore COURSES_DATA = Some catalog)
    by (vm_compute; reflexivity).
  assert (Hhi : ~ (1 # 2 < FAILURE_RATE)%Q) by (intros H; discriminate H).
  split; [exact Hcat|]. split; [exact Hhi|].
  exact (proj2 (proj2 (loadMany_last [1 # 20; 1 # 50] (1 # 2) moduleStore initialState Hcat))
           Hhi).
Defined.

End EndToEnd.
